(** * Gemini-pc-control: the command pipeline and the context store

    A shallow embedding of
      - [gemini_pc_control/models/command.py]   (module [command]),
      - [gemini_pc_control/models/response.py]  (module [response]),
      - [gemini_pc_control/system/command_executor.py]
                                                (module [command_executor]),
      - [gemini_pc_control/ai/context_manager.py]
                                                (module [context_manager]),
    and the properties of the parser, the command life cycle, the composite
    executor and the context store that follow from the code.

    Conventions of the embedding.
      - A Python [str] is a [string]; its characters are the code points
        below 256.  On these, [str.isspace] and the regex class [\s] agree,
        and the regex class [\d] is ['0'..'9'].
      - A Python [int] is a [Z].  A Python [float] is the rational number it
        denotes ([Q], kept in lowest terms); the rounding of a decimal
        literal to the nearest double is not represented.  [int()] on a
        digit string raises above the interpreter's default cap of 4300
        digits (the package requires Python 3.11).
      - [datetime] values are [Z] (microseconds); [time.time()] is a [Q].
      - Every effect (drawing a uuid, reading a clock, driving the pointer or
        the keyboard, spawning a process, writing to the output channel,
        sleeping) is a state transformer over an abstract world, the class
        [Host].  A primitive that raises is a primitive that answers [false].
      - Python objects mutated in place ([Command], [ContextWindow], the
        [system_state] dict) are passed and returned explicitly. *)

From Stdlib Require Import ZArith QArith Lqa Ascii String List Bool Lia.
From stdpp Require Import base option gmap strings list fin_maps pretty.

Set Warnings "-register-all".
Local Open Scope string_scope.

(** ** Python strings *)

Module PyStr.

Definition code (c : ascii) : N := N_of_ascii c.

(** [str.isspace] on one character; also the regex class [\s]. *)
Definition isspace (c : ascii) : bool :=
  let n := code c in
  (((9 <=? n) && (n <=? 13)) || ((28 <=? n) && (n <=? 32))
   || (n =? 133) || (n =? 160))%N.

(** The regex class [\d] (and [0-9]). *)
Definition isdigit (c : ascii) : bool :=
  let n := code c in ((48 <=? n) && (n <=? 57))%N.

(** The regex class [[0-9.]]. *)
Definition isdecimalchar (c : ascii) : bool :=
  isdigit c || Ascii.eqb c ".".

(** The regex [.] without DOTALL: anything but a line feed. *)
Definition isdot (c : ascii) : bool := negb (code c =? 10)%N.

(** The double quote and the line feed. *)
Definition dquote : ascii := "034"%char.
Definition linefeed : ascii := "010"%char.

(** The characters of [strip("'\034")]: both quotes. *)
Definition isquote (c : ascii) : bool :=
  Ascii.eqb c "'" || Ascii.eqb c dquote.

Definition is_empty (s : string) : bool :=
  match s with EmptyString => true | String _ _ => false end.

(** [s.lstrip(chars)], [s.rstrip(chars)], [s.strip(chars)], the set of
    characters given as a predicate. *)
Fixpoint lstrip_with (p : ascii -> bool) (s : string) : string :=
  match s with
  | EmptyString => EmptyString
  | String c s' => if p c then lstrip_with p s' else s
  end.

Fixpoint rstrip_with (p : ascii -> bool) (s : string) : string :=
  match s with
  | EmptyString => EmptyString
  | String c s' =>
      let r := rstrip_with p s' in
      if p c && is_empty r then EmptyString else String c r
  end.

Definition strip_with (p : ascii -> bool) (s : string) : string :=
  lstrip_with p (rstrip_with p s).

(** [s.strip()] *)
Definition strip (s : string) : string := strip_with isspace s.

(** [s.startswith(p)] *)
Definition startswith (s p : string) : bool := String.prefix p s.

(** [c in s] for a one-character [c]. *)
Fixpoint contains (c : ascii) (s : string) : bool :=
  match s with
  | EmptyString => false
  | String a s' => Ascii.eqb a c || contains c s'
  end.

(** [s.split(sep)] for a one-character separator: never the empty list,
    [n] separators give [n + 1] pieces. *)
Fixpoint split (sep : ascii) (s : string) : list string :=
  match s with
  | EmptyString => [EmptyString]
  | String a s' =>
      if Ascii.eqb a sep then EmptyString :: split sep s'
      else match split sep s' with
           | h :: t => String a h :: t
           | [] => [String a EmptyString]
           end
  end.

(** [s[len(p):]] when [s] starts with [p]. *)
Fixpoint strip_prefix (p s : string) : option string :=
  match p, s with
  | EmptyString, _ => Some s
  | String a p', String b s' =>
      if Ascii.eqb a b then strip_prefix p' s' else None
  | String _ _, EmptyString => None
  end.

(** [s[n:]] for [0 <= n]. *)
Fixpoint skip (n : nat) (s : string) : string :=
  match n, s with
  | O, _ => s
  | S n', String _ s' => skip n' s'
  | S _, EmptyString => EmptyString
  end.

(** The longest prefix of [s] whose characters satisfy [p], and the rest. *)
Fixpoint span (p : ascii -> bool) (s : string) : string * string :=
  match s with
  | EmptyString => (EmptyString, EmptyString)
  | String c s' =>
      if p c then let '(a, b) := span p s' in (String c a, b)
      else (EmptyString, s)
  end.

(** Every character of [s] satisfies [p]. *)
Fixpoint all_chars (p : ascii -> bool) (s : string) : bool :=
  match s with
  | EmptyString => true
  | String c s' => p c && all_chars p s'
  end.

(** [int(s)] for a string of decimal digits. *)
Definition digit_value (c : ascii) : Z := Z.of_N (code c) - 48.

Fixpoint int_of_digits_from (acc : Z) (s : string) : Z :=
  match s with
  | EmptyString => acc
  | String c s' => int_of_digits_from (10 * acc + digit_value c) s'
  end.

Definition int_of_digits (s : string) : Z := int_of_digits_from 0 s.

(** The cap on the digits [int()] converts
    ([sys.int_info.default_max_str_digits], which the program leaves as
    it is); every digit counts, leading zeros too. *)
Definition int_max_str_digits : nat := 4300.

(** [int(s)] for a string of decimal digits: a [ValueError] ([None]) when
    there are more digits than the cap. *)
Definition int_of_text (s : string) : option Z :=
  if (int_max_str_digits <? String.length s)%nat then None
  else Some (int_of_digits s).

Fixpoint pow10 (n : nat) : positive :=
  match n with
  | O => 1%positive
  | S n' => (10 * pow10 n')%positive
  end.

(** [float(s)] for a string over [[0-9.]]: a [ValueError] ([None]) unless
    there is at most one point and at least one digit. *)
Definition float_of_decimal (s : string) : option Q :=
  let '(ip, rest) := span isdigit s in
  match rest with
  | EmptyString =>
      if is_empty ip then None else Some (Qred (int_of_digits ip # 1))
  | String c fp0 =>
      let '(fp, tail) := span isdigit fp0 in
      if negb (Ascii.eqb c ".") || negb (is_empty tail)
         || (is_empty ip && is_empty fp)
      then None
      else Some (Qred (Qmake (int_of_digits (ip ++ fp))
                             (pow10 (String.length fp))))
  end.

End PyStr.

(** ** Python values ([Any]) *)

Module PyVal.

Inductive Value : Type :=
| VNone
| VBool (b : bool)
| VInt (z : Z)
| VFloat (q : Q)
| VStr (s : string)
| VList (l : list Value).

(** Truth value testing, as [if v] / [not v] do it. *)
Definition truthy (v : Value) : bool :=
  match v with
  | VNone => false
  | VBool b => b
  | VInt z => negb (z =? 0)%Z
  | VFloat q => negb (Qeq_bool q 0)
  | VStr s => negb (PyStr.is_empty s)
  | VList l => match l with [] => false | _ :: _ => true end
  end.

(** [d.get(key, default)] *)
Definition dict_get (d : gmap string Value) (key : string) (default : Value)
  : Value :=
  match d !! key with
  | Some v => v
  | None => default
  end.

Definition is_Some_b {A : Type} (o : option A) : bool :=
  match o with Some _ => true | None => false end.

End PyVal.

(** ** The host: every effect the program has *)

Module host.
Import PyVal.

(** [datetime.datetime], in microseconds. *)
Definition datetime : Type := Z.

(** The calls into the automation library, the process library and the
    output channel, with the arguments as the code passes them. *)
Inductive Action : Type :=
| pyautogui_moveTo (x y duration : Value)
| pyautogui_click (button clicks : Value)
| pyautogui_typewrite (text : Value)
| pyautogui_hotkey (keys : Value)
| subprocess_run (command_str : Value)
| print (text : Value).

(** How a call ends: it returns, or it raises
    [subprocess.CalledProcessError], or it raises another [Exception]. *)
Inductive Outcome : Type :=
| Returned
| RaisedCalledProcessError
| RaisedOther.

Class Host (World : Type) : Type := {
  (** [str(uuid.uuid4())] *)
  uuid4 : World -> string * World;
  (** [datetime.now()] *)
  datetime_now : World -> datetime * World;
  (** [time.time()] *)
  time_time : World -> Q * World;
  (** one call of an [Action] *)
  perform : Action -> World -> Outcome * World;
  (** [time.sleep(0.1)] *)
  time_sleep : World -> World
}.

(** Computations over the world. *)
Definition M (World A : Type) : Type := World -> A * World.

Definition ret {World A : Type} (a : A) : M World A := fun w => (a, w).

Definition bind {World A B : Type} (m : M World A) (k : A -> M World B)
  : M World B :=
  fun w => let '(a, w') := m w in k a w'.

Definition lift {World : Type} (f : World -> World) : M World unit :=
  fun w => (tt, f w).

End host.

Notation "'let*' x ':=' m 'in' k" :=
  (host.bind m (fun x => k))
  (at level 10, x pattern, m at level 100, k at level 200).

(** ** models/command.py *)

Module command.
Import PyVal host.

Inductive CommandType : Type :=
| MOUSE_MOVE | MOUSE_CLICK | KEYBOARD_TYPE | KEYBOARD_HOTKEY
| START_PROCESS | PRINT_OUTPUT | COMPOSITE | UNKNOWN.

Inductive CommandStatus : Type :=
| PENDING | EXECUTING | COMPLETED | FAILED | CANCELED.

#[global] Instance CommandType_eq_dec : EqDecision CommandType.
Proof. solve_decision. Defined.

#[global] Instance CommandStatus_eq_dec : EqDecision CommandStatus.
Proof. solve_decision. Defined.

(** The payload models and the dict their [.dict()] gives. *)
Definition MouseMoveCommand (x y duration : Value) : gmap string Value :=
  <["x" := x]> (<["y" := y]> (<["duration" := duration]> ∅)).

Definition MouseClickCommand : gmap string Value :=
  <["button" := VStr "left"]> (<["clicks" := VInt 1]> ∅).

Definition KeyboardTypeCommand (text : Value) : gmap string Value :=
  <["text" := text]> ∅.

Definition KeyboardHotkeyCommand (keys : Value) : gmap string Value :=
  <["keys" := keys]> ∅.

Definition StartProcessCommand (command : Value) : gmap string Value :=
  <["command" := command]> ∅.

Definition PrintOutputCommand (text : Value) : gmap string Value :=
  <["text" := text]> ∅.

Inductive Command : Type := mkCommand {
  id : string;
  type : CommandType;
  status : CommandStatus;
  created_at : datetime;
  executed_at : option datetime;
  completed_at : option datetime;
  user_prompt : string;
  raw_response : string;
  error_message : option string;
  screenshot_id : option string;
  data : gmap string Value;
  sub_commands : list Command
}.

Definition is_composite (c : Command) : bool :=
  bool_decide (type c = COMPOSITE).

Definition set_status (c : Command) (s : CommandStatus) : Command :=
  mkCommand (id c) (type c) s (created_at c) (executed_at c)
    (completed_at c) (user_prompt c) (raw_response c) (error_message c)
    (screenshot_id c) (data c) (sub_commands c).

Definition set_executed_at (c : Command) (t : option datetime) : Command :=
  mkCommand (id c) (type c) (status c) (created_at c) t
    (completed_at c) (user_prompt c) (raw_response c) (error_message c)
    (screenshot_id c) (data c) (sub_commands c).

Definition set_completed_at (c : Command) (t : option datetime) : Command :=
  mkCommand (id c) (type c) (status c) (created_at c) (executed_at c)
    t (user_prompt c) (raw_response c) (error_message c)
    (screenshot_id c) (data c) (sub_commands c).

Definition set_error_message (c : Command) (e : option string) : Command :=
  mkCommand (id c) (type c) (status c) (created_at c) (executed_at c)
    (completed_at c) (user_prompt c) (raw_response c) e
    (screenshot_id c) (data c) (sub_commands c).

(** [command.sub_commands.append(sub)] *)
Definition append_sub_command (c sub : Command) : Command :=
  mkCommand (id c) (type c) (status c) (created_at c) (executed_at c)
    (completed_at c) (user_prompt c) (raw_response c) (error_message c)
    (screenshot_id c) (data c) (sub_commands c ++ [sub]).

(** [command.sub_commands.extend(subs)] *)
Definition extend_sub_commands (c : Command) (subs : list Command)
  : Command :=
  mkCommand (id c) (type c) (status c) (created_at c) (executed_at c)
    (completed_at c) (user_prompt c) (raw_response c) (error_message c)
    (screenshot_id c) (data c) (sub_commands c ++ subs).

(** A command nobody has run: pending, no timestamp of a run, no
    diagnostic. *)
Definition untouched (c : Command) : Prop :=
  status c = PENDING /\ executed_at c = None /\ completed_at c = None
  /\ error_message c = None.

(** A primitive command nobody has run: what the parser makes of one
    fragment or of one function call. *)
Definition parsed_leaf (c : Command) : Prop :=
  untouched c /\ sub_commands c = [] /\ type c <> UNKNOWN
  /\ type c <> COMPOSITE.

(** [Command.duration]: the seconds between the two timestamps of the
    run, when both are set. *)
Definition duration (c : Command) : option Q :=
  match completed_at c, executed_at c with
  | Some done, Some begun => Some (Qred (Qmake (done - begun) 1000000))
  | _, _ => None
  end.

Section update_status.
Context {World : Type} `{Host World}.

(** [Command(...)] with the defaults of the model: [created_at] reads
    the clock, nothing is executed or completed, no sub-commands. *)
Definition new_Command (id : string) (type : CommandType)
    (status : CommandStatus) (user_prompt raw_response : string)
    (error_message screenshot_id : option string)
    (data : gmap string Value) : M World Command :=
  let* now := datetime_now in
  ret (mkCommand id type status now None None user_prompt raw_response
         error_message screenshot_id data []).

(** [Command.update_status]: the clock is read only in the branch that
    stores it; a [datetime] is never falsy, so [not self.executed_at]
    is [self.executed_at is None]. *)
Definition update_status (self : Command) (status : CommandStatus)
    (error : option string) : M World Command :=
  let self := set_status self status in
  let* self :=
    if bool_decide (status = EXECUTING) && negb (is_Some_b (executed_at self))
    then let* now := datetime_now in
         ret (set_executed_at self (Some now))
    else ret self in
  let* self :=
    if bool_decide (status = COMPLETED) && negb (is_Some_b (completed_at self))
    then let* now := datetime_now in
         ret (set_completed_at self (Some now))
    else ret self in
  if bool_decide (status = FAILED)
  then ret (set_error_message self error)
  else ret self.

(** A sequence of transitions, applied one after the other. *)
Fixpoint update_status_seq (self : Command)
    (ts : list (CommandStatus * option string)) : M World Command :=
  match ts with
  | [] => ret self
  | (status, error) :: ts' =>
      let* self := update_status self status error in
      update_status_seq self ts'
  end.

End update_status.

End command.

(** ** models/response.py *)

Module response.
Import PyVal host.

Inductive ResponseType : Type :=
| COMMAND | ERROR | INFORMATION | FUNCTION_CALL.

#[global] Instance ResponseType_eq_dec : EqDecision ResponseType.
Proof. solve_decision. Defined.

Record FunctionCall : Type := mkFunctionCall {
  name : string;
  arguments : gmap string Value
}.

Record AIResponse : Type := mkAIResponse {
  id : string;
  type : ResponseType;
  created_at : datetime;
  prompt_id : string;
  raw_text : string;
  parsed_text : option string;
  function_calls : list FunctionCall;
  model_name : string;
  metadata : gmap string Value
}.

Definition is_function_call (r : AIResponse) : bool :=
  bool_decide (type r = FUNCTION_CALL).

Definition has_function_calls (r : AIResponse) : bool :=
  (0 <? length (function_calls r))%nat.

Definition is_error (r : AIResponse) : bool :=
  bool_decide (type r = ERROR).

Definition is_command (r : AIResponse) : bool :=
  bool_decide (type r = COMMAND).

Section constructors.
Context {World : Type} `{Host World}.

(** [AIResponse.create_error_response]: a uuid for the id, the clock for
    [created_at], the message as raw and as parsed text, no function call,
    no metadata. *)
Definition create_error_response (prompt_id error_message model_name : string)
  : M World AIResponse :=
  let* rid := uuid4 in
  let* now := datetime_now in
  ret (mkAIResponse rid ERROR now prompt_id error_message
         (Some error_message) [] model_name ∅).

(** [AIResponse.create_information_response] *)
Definition create_information_response (prompt_id message model_name : string)
  : M World AIResponse :=
  let* rid := uuid4 in
  let* now := datetime_now in
  ret (mkAIResponse rid INFORMATION now prompt_id message
         (Some message) [] model_name ∅).

End constructors.

End response.

(** ** The regular expressions of the parser

    [re.match] anchors at the start only.  Each expression below is matched
    the way the backtracking engine matches it; the comments say why the
    greedy choice is the only one that can succeed. *)

Module re.
Import PyStr.

(** The longest [g] with [s = g ++ lit ++ _]: the greedy [.*] followed by
    the literal [lit], on a string without line feeds. *)
Fixpoint greedy_until (lit s : string) : option string :=
  match s with
  | EmptyString =>
      if String.prefix lit EmptyString then Some EmptyString else None
  | String c s' =>
      match greedy_until lit s' with
      | Some g => Some (String c g)
      | None => if String.prefix lit s then Some EmptyString else None
      end
  end.

(** The group of [(.+)lit]: [.] stops at the first line feed, the group
    has at least one character, and backtracking gives up characters from
    the right until [lit] follows. *)
Definition dot_plus_until (lit s : string) : option string :=
  let '(line, _) := span isdot s in
  match line with
  | EmptyString => None
  | String c line' =>
      match greedy_until lit line' with
      | Some g => Some (String c g)
      | None => None
      end
  end.

(** [pyautogui\.moveTo\((\d+),\s*(\d+)(?:,\s*duration=([0-9.]+))?\)]:
    groups 1, 2 and 3.  After a run of digits comes a character that is
    not a digit, after the blanks one that is not a blank, after
    [[0-9.]+] the parenthesis: no shorter run can match.  The optional
    part starts with a comma, the alternative with the parenthesis. *)
Definition match_moveTo (s : string)
  : option (string * string * option string) :=
  rest ← strip_prefix "pyautogui.moveTo(" s;
  let '(g1, rest) := span isdigit rest in
  if is_empty g1 then None else
  rest ← strip_prefix "," rest;
  let '(_, rest) := span isspace rest in
  let '(g2, rest) := span isdigit rest in
  if is_empty g2 then None else
  match strip_prefix ")" rest with
  | Some _ => Some (g1, g2, None)
  | None =>
      rest ← strip_prefix "," rest;
      let '(_, rest) := span isspace rest in
      rest ← strip_prefix "duration=" rest;
      let '(g3, rest) := span isdecimalchar rest in
      if is_empty g3 then None else
      _ ← strip_prefix ")" rest;
      Some (g1, g2, Some g3)
  end.

(** The surface form of a pointer move, from its parts: the digits of
    [x], the blanks after the first comma, the digits of [y] and, when the
    duration is given, the blanks after the second comma and the decimal
    text of the duration. *)
Definition moveTo_text (x blanks y : string)
    (duration : option (string * string)) : string :=
  "pyautogui.moveTo(" ++ x ++ "," ++ blanks ++ y ++
  match duration with
  | None => ")"
  | Some (blanks', d) => "," ++ blanks' ++ "duration=" ++ d ++ ")"
  end.

(** What the parts of that form are: digits, at least one and no more
    than [int] converts, for [x] and [y], and blanks where blanks may
    stand. *)
Definition moveTo_parts (x blanks y : string)
    (duration : option (string * string)) : Prop :=
  x <> "" /\ all_chars isdigit x = true
  /\ (String.length x <= int_max_str_digits)%nat
  /\ y <> "" /\ all_chars isdigit y = true
  /\ (String.length y <= int_max_str_digits)%nat
  /\ all_chars isspace blanks = true
  /\ match duration with
     | None => True
     | Some (blanks', _) => all_chars isspace blanks' = true
     end.

(** The duration that form stands for: the float of the decimal text, or
    the default. *)
Definition moveTo_duration (duration : option (string * string))
  : option Q :=
  match duration with
  | None => Some (1 # 10)
  | Some (_, d) => float_of_decimal d
  end.

(** The surface forms of a typing and of a print of the text [t]. *)
Definition typewrite_text (t : string) : string :=
  "pyautogui.typewrite(" ++ String dquote "" ++ t ++ String dquote "" ++ ")".

Definition print_text (t : string) : string :=
  "print(" ++ String dquote "" ++ t ++ String dquote "" ++ ")".

(** The literal that closes a quoted argument: a double quote and a
    closing parenthesis. *)
Definition close_quoted : string := String dquote ")".

(** [pyautogui\.typewrite\(\034(.+)\034\)] (with \034 the double quote):
    group 1. *)
Definition match_typewrite (s : string) : option string :=
  rest ← strip_prefix ("pyautogui.typewrite(" ++ String dquote "") s;
  dot_plus_until close_quoted rest.

(** [pyautogui\.hotkey\((.+)\)]: group 1. *)
Definition match_hotkey (s : string) : option string :=
  rest ← strip_prefix "pyautogui.hotkey(" s;
  dot_plus_until ")" rest.

(** [print\(\034(.+)\034\)]: group 1. *)
Definition match_print (s : string) : option string :=
  rest ← strip_prefix ("print(" ++ String dquote "") s;
  dot_plus_until close_quoted rest.

End re.

(** ** system/command_executor.py *)

Module command_executor.
Import PyStr PyVal host command response re.

(** The sentinel of the generator, and the prefix of its second form. *)
Definition error_sentinel : string := "An error occurred, retrying...".
Definition error_print_prefix : string := "print('An error occurred".

(** What the validation library does to the arguments of a function call
    (it coerces a value to the declared field type or raises), and the
    text [str(function_call.dict())]. *)
Class Pydantic : Type := {
  validate_int : Value -> option Value;
  validate_float : Value -> option Value;
  validate_str : Value -> option Value;
  validate_str_list : Value -> option Value;
  str_of_call : FunctionCall -> string
}.

Section CommandParser.
Context {World : Type} `{Host World} `{Pydantic}.

(** [CommandParser._parse_single_command].  A uuid is drawn on entry,
    whatever the outcome.  [None] is Python's [None]; the [ValueError] of
    [int] or [float] is caught and gives [None]. *)
Definition _parse_single_command (command_text user_prompt : string)
    (screenshot_id : option string) : M World (option Command) :=
  let* command_id := uuid4 in
  let command_text := strip command_text in
  let build (type : CommandType) (data : gmap string Value)
    : M World (option Command) :=
    let* c := new_Command command_id type PENDING user_prompt
                command_text None screenshot_id data in
    ret (Some c) in
  if startswith command_text "pyautogui.moveTo" then
    match match_moveTo command_text with
    | Some (g1, g2, g3) =>
        match int_of_text g1, int_of_text g2 with
        | Some x, Some y =>
            let duration :=
              match g3 with
              | Some d =>
                  if is_empty d then Some (1 # 10) else float_of_decimal d
              | None => Some (1 # 10)
              end in
            match duration with
            | Some duration =>
                build MOUSE_MOVE
                  (MouseMoveCommand (VInt x) (VInt y) (VFloat duration))
            | None => ret None
            end
        | _, _ => ret None
        end
    | None => ret None
    end
  else if startswith command_text "pyautogui.click" then
    build MOUSE_CLICK MouseClickCommand
  else if startswith command_text "pyautogui.typewrite" then
    match match_typewrite command_text with
    | Some text => build KEYBOARD_TYPE (KeyboardTypeCommand (VStr text))
    | None => ret None
    end
  else if startswith command_text "pyautogui.hotkey" then
    match match_hotkey command_text with
    | Some keys_str =>
        let keys :=
          map (fun k => VStr (strip_with isquote (strip k)))
              (split "," keys_str) in
        build KEYBOARD_HOTKEY (KeyboardHotkeyCommand (VList keys))
    | None => ret None
    end
  else if startswith command_text "start " then
    let command_str := skip (String.length "start ") command_text in
    build START_PROCESS (StartProcessCommand (VStr command_str))
  else if startswith command_text "print(" then
    match match_print command_text with
    | Some text => build PRINT_OUTPUT (PrintOutputCommand (VStr text))
    | None => ret None
    end
  else ret None.

(** The loop over the fragments of a composite text: an empty fragment
    is skipped, a fragment that parses to [None] appends nothing. *)
Fixpoint parse_sub_commands (command : Command)
    (sub_command_texts : list string) (user_prompt : string)
    (screenshot_id : option string) : M World Command :=
  match sub_command_texts with
  | [] => ret command
  | sub_text :: rest =>
      if is_empty sub_text
      then parse_sub_commands command rest user_prompt screenshot_id
      else
        let* sub_command :=
          _parse_single_command sub_text user_prompt screenshot_id in
        match sub_command with
        | Some sub =>
            parse_sub_commands (append_sub_command command sub) rest
              user_prompt screenshot_id
        | None =>
            parse_sub_commands command rest user_prompt screenshot_id
        end
  end.

(** The results that are commands, in their order: what the guard
    [if sub_command:] lets through. *)
Definition commands_of (results : list (option Command)) : list Command :=
  omap (fun r => r) results.

(** What [_parse_single_command] answers on each non-empty fragment,
    fragment after fragment. *)
Fixpoint per_fragment_results (sub_command_texts : list string)
    (user_prompt : string) (screenshot_id : option string)
    : M World (list (option Command)) :=
  match sub_command_texts with
  | [] => ret []
  | sub_text :: rest =>
      if is_empty sub_text
      then per_fragment_results rest user_prompt screenshot_id
      else
        let* r := _parse_single_command sub_text user_prompt screenshot_id in
        let* rs := per_fragment_results rest user_prompt screenshot_id in
        ret (r :: rs)
  end.

(** [CommandParser.parse_text_response] *)
Definition parse_text_response (response : AIResponse)
    (user_prompt : string) (screenshot_id : option string)
    : M World Command :=
  let* command_id := uuid4 in
  let raw_text := raw_text response in
  if String.eqb (strip raw_text) error_sentinel
     || startswith raw_text error_print_prefix
  then
    new_Command command_id UNKNOWN FAILED user_prompt raw_text
      (Some "AI detected an error and suggested retry") screenshot_id ∅
  else if contains ";" raw_text then
    let* command := new_Command command_id COMPOSITE PENDING user_prompt
                      raw_text None screenshot_id ∅ in
    let sub_command_texts := map strip (split ";" raw_text) in
    parse_sub_commands command sub_command_texts user_prompt screenshot_id
  else
    let* command :=
      _parse_single_command raw_text user_prompt screenshot_id in
    match command with
    | Some command => ret command
    | None =>
        new_Command command_id UNKNOWN PENDING user_prompt raw_text
          (Some "Could not parse command") screenshot_id ∅
    end.

(** [CommandParser._parse_function_call]: an unknown name and a
    validation error both give [None]. *)
Definition _parse_function_call (function_call : FunctionCall)
    (user_prompt : string) (screenshot_id : option string)
    : M World (option Command) :=
  let* command_id := uuid4 in
  let args := arguments function_call in
  let build (type : CommandType) (data : option (gmap string Value))
    : M World (option Command) :=
    match data with
    | Some data =>
        let* c := new_Command command_id type PENDING user_prompt
                    (str_of_call function_call) None screenshot_id data in
        ret (Some c)
    | None => ret None
    end in
  let fname := name function_call in
  if String.eqb fname "execute_mouse_movement" then
    build MOUSE_MOVE
      (x ← validate_int (dict_get args "x" (VInt 0));
       y ← validate_int (dict_get args "y" (VInt 0));
       d ← validate_float (dict_get args "duration" (VFloat (1 # 10)));
       Some (MouseMoveCommand x y d))
  else if String.eqb fname "execute_keyboard_input" then
    build KEYBOARD_TYPE
      (t ← validate_str (dict_get args "text" (VStr ""));
       Some (KeyboardTypeCommand t))
  else if String.eqb fname "execute_hotkey" then
    build KEYBOARD_HOTKEY
      (k ← validate_str_list (dict_get args "keys" (VList []));
       Some (KeyboardHotkeyCommand k))
  else if String.eqb fname "start_application" then
    build START_PROCESS
      (c ← validate_str (dict_get args "path" (VStr ""));
       Some (StartProcessCommand c))
  else if String.eqb fname "print_output" then
    build PRINT_OUTPUT
      (t ← validate_str (dict_get args "text" (VStr ""));
       Some (PrintOutputCommand t))
  else ret None.

(** The loop over several function calls. *)
Fixpoint parse_function_calls (command : Command)
    (calls : list FunctionCall) (user_prompt : string)
    (screenshot_id : option string) : M World Command :=
  match calls with
  | [] => ret command
  | func_call :: rest =>
      let* sub_command :=
        _parse_function_call func_call user_prompt screenshot_id in
      match sub_command with
      | Some sub =>
          parse_function_calls (append_sub_command command sub) rest
            user_prompt screenshot_id
      | None =>
          parse_function_calls command rest user_prompt screenshot_id
      end
  end.

(** What [_parse_function_call] answers on each call, call after
    call. *)
Fixpoint per_call_results (calls : list FunctionCall)
    (user_prompt : string) (screenshot_id : option string)
    : M World (list (option Command)) :=
  match calls with
  | [] => ret []
  | func_call :: rest =>
      let* r := _parse_function_call func_call user_prompt screenshot_id in
      let* rs := per_call_results rest user_prompt screenshot_id in
      ret (r :: rs)
  end.

(** [CommandParser.parse_function_call_response] *)
Definition parse_function_call_response (response : AIResponse)
    (user_prompt : string) (screenshot_id : option string)
    : M World Command :=
  let* command_id := uuid4 in
  match function_calls response with
  | [] =>
      new_Command command_id UNKNOWN PENDING user_prompt
        (raw_text response) (Some "No function calls found in response")
        screenshot_id ∅
  | [only] =>
      let* command :=
        _parse_function_call only user_prompt screenshot_id in
      match command with
      | Some command => ret command
      | None =>
          new_Command command_id UNKNOWN PENDING user_prompt
            (raw_text response) (Some "Could not parse function call")
            screenshot_id ∅
      end
  | calls =>
      let* command := new_Command command_id COMPOSITE PENDING user_prompt
                        (raw_text response) None screenshot_id ∅ in
      parse_function_calls command calls user_prompt screenshot_id
  end.

End CommandParser.

Section CommandExecutor.
Context {World : Type} `{Host World} `{Pydantic}.

(** The result of a method that may raise: [None] is an exception that
    leaves the method. *)
Definition returned_or_raised (o : Outcome) : option bool :=
  match o with
  | Returned => Some true
  | RaisedCalledProcessError | RaisedOther => None
  end.

Definition _execute_mouse_move (command : Command)
  : M World (option bool) :=
  let data := data command in
  let x := dict_get data "x" (VInt 0) in
  let y := dict_get data "y" (VInt 0) in
  let duration := dict_get data "duration" (VFloat (1 # 10)) in
  let* o := perform (pyautogui_moveTo x y duration) in
  ret (returned_or_raised o).

Definition _execute_mouse_click (command : Command)
  : M World (option bool) :=
  let data := data command in
  let button := dict_get data "button" (VStr "left") in
  let clicks := dict_get data "clicks" (VInt 1) in
  let* o := perform (pyautogui_click button clicks) in
  ret (returned_or_raised o).

Definition _execute_keyboard_type (command : Command)
  : M World (option bool) :=
  let data := data command in
  let text := dict_get data "text" (VStr "") in
  if negb (truthy text) then ret (Some false)
  else
    let* o := perform (pyautogui_typewrite text) in
    ret (returned_or_raised o).

Definition _execute_keyboard_hotkey (command : Command)
  : M World (option bool) :=
  let data := data command in
  let keys := dict_get data "keys" (VList []) in
  if negb (truthy keys) then ret (Some false)
  else
    let* o := perform (pyautogui_hotkey keys) in
    ret (returned_or_raised o).

(** [subprocess.CalledProcessError] is caught here; anything else
    leaves the method. *)
Definition _execute_start_process (command : Command)
  : M World (option bool) :=
  let data := data command in
  let command_str := dict_get data "command" (VStr "") in
  if negb (truthy command_str) then ret (Some false)
  else
    let* o := perform (subprocess_run command_str) in
    ret (match o with
         | Returned => Some true
         | RaisedCalledProcessError => Some false
         | RaisedOther => None
         end).

Definition _execute_print_output (command : Command)
  : M World (option bool) :=
  let data := data command in
  let text := dict_get data "text" (VStr "") in
  let* o := perform (print text) in
  ret (returned_or_raised o).

(** [CommandExecutor._execute_single_command]: the dispatch on the
    type; an exception of the callee is caught and gives [False]; a
    composite or unknown type gives [False] without any call. *)
Definition _execute_single_command (command : Command) : M World bool :=
  let catch (m : M World (option bool)) : M World bool :=
    let* r := m in
    ret (match r with Some b => b | None => false end) in
  match command.type command with
  | MOUSE_MOVE => catch (_execute_mouse_move command)
  | MOUSE_CLICK => catch (_execute_mouse_click command)
  | KEYBOARD_TYPE => catch (_execute_keyboard_type command)
  | KEYBOARD_HOTKEY => catch (_execute_keyboard_hotkey command)
  | START_PROCESS => catch (_execute_start_process command)
  | PRINT_OUTPUT => catch (_execute_print_output command)
  | COMPOSITE | UNKNOWN => ret false
  end.

(** The loop of [CommandExecutor._execute_composite_command], from the
    running value of [success] and the sub-commands still to run.
    Besides the flag it answers the trace of the loop: each sub-command
    handed to [_execute_single_command], in the order of the calls,
    with what the call returned.  The [break] leaves before the sleep. *)
Fixpoint composite_loop (success : bool) (subs : list Command)
  : M World (bool * list (Command * bool)) :=
  match subs with
  | [] => ret (success, [])
  | sub_command :: rest =>
      let* sub_success := _execute_single_command sub_command in
      let success := success && sub_success in
      if negb sub_success
         && negb (bool_decide (command.type sub_command = PRINT_OUTPUT))
      then ret (success, [(sub_command, sub_success)])
      else
        let* _ := lift time_sleep in
        let* (success, trace) := composite_loop success rest in
        ret (success, (sub_command, sub_success) :: trace)
  end.

(** The condition of the [break], on an entry of the trace. *)
Definition halts (entry : Command * bool) : bool :=
  negb entry.2
  && negb (bool_decide (command.type entry.1 = PRINT_OUTPUT)).

Definition _execute_composite_command_traced (command : Command)
  : M World (bool * list (Command * bool)) :=
  composite_loop true (sub_commands command).

(** [CommandExecutor._execute_composite_command] *)
Definition _execute_composite_command (command : Command)
  : M World bool :=
  let* (success, _) := _execute_composite_command_traced command in
  ret success.

(** The world in which the loop reaches what follows [subs]: each of
    [subs] handed to [_execute_single_command], in order, and each call
    followed by the sleep. *)
Fixpoint world_after (subs : list Command) (w : World) : World :=
  match subs with
  | [] => w
  | sub_command :: rest =>
      world_after rest
        (time_sleep (snd (_execute_single_command sub_command w)))
  end.

(** The world the loop leaves when it has made [n] calls on [subs]: the
    first [n - 1] calls with their sleeps, then the last call, then the
    sleep unless that call left the loop by the [break].  The loop
    makes no more calls than there are sub-commands; for a larger [n]
    the world is that of all of them. *)
Definition world_at_end (subs : list Command) (n : nat) (w : World)
  : World :=
  match n with
  | O => w
  | S k =>
      match subs !! k with
      | Some sub_command =>
          let r := _execute_single_command sub_command
                     (world_after (take k subs) w) in
          if halts (sub_command, fst r) then snd r
          else time_sleep (snd r)
      | None => world_after subs w
      end
  end.

(** [CommandExecutor.execute_command]: the answer and the command as
    the call leaves it.  Nothing in the body raises in this model, so
    the [except] branch is not taken. *)
Definition execute_command (command : Command)
  : M World (bool * Command) :=
  if bool_decide (status command = FAILED) then ret (false, command)
  else
    let* command := update_status command EXECUTING None in
    let* success :=
      if bool_decide (command.type command = COMPOSITE)
      then _execute_composite_command command
      else _execute_single_command command in
    if success then
      let* command := update_status command COMPLETED None in
      ret (success, command)
    else
      let* command :=
        update_status command FAILED (Some "Command execution failed") in
      ret (success, command).

(** [CommandExecutor.execute_ai_response] *)
Definition execute_ai_response (response : AIResponse)
    (user_prompt : string) (screenshot_id : option string)
    : M World (bool * Command) :=
  let* command :=
    if is_function_call response
    then parse_function_call_response response user_prompt screenshot_id
    else parse_text_response response user_prompt screenshot_id in
  execute_command command.

End CommandExecutor.

End command_executor.

(** ** ai/context_manager.py *)

Module context_manager.
Import PyVal host.

Record CommandEntry : Type := mkCommandEntry {
  timestamp : Q;
  command : string;
  user_prompt : string;
  result : string;
  screenshot_id : string
}.

Record ContextWindow : Type := mkContextWindow {
  max_entries : Z;
  time_window : Z;
  entries : list CommandEntry
}.

(** One value of [system_state]: the dict with the keys [value] and
    [updated_at]. *)
Record StateEntry : Type := mkStateEntry {
  value : Value;
  updated_at : Q
}.

Record ContextManager : Type := mkContextManager {
  conversation_context : ContextWindow;
  system_state : gmap string StateEntry;
  user_preferences : gmap string Value
}.

(** The slice [l[start:]]: a negative [start] counts from the end, and
    both ends are clamped. *)
Definition slice_from {A : Type} (start : Z) (l : list A) : list A :=
  let len := Z.of_nat (length l) in
  let first := if (start <? 0)%Z then Z.max (len + start) 0
               else Z.min start len in
  drop (Z.to_nat first) l.

(** The state entries are younger than this many seconds. *)
Definition state_ttl : Q := 3600%Q.

(** The test of the age filter, for the clock reading [now]. *)
Definition recent (now : Q) (time_window : Z) (e : CommandEntry) : bool :=
  Qle_bool (now - inject_Z time_window)%Q (timestamp e).

(** A state entry is expired at the clock reading [now]. *)
Definition expired (now : Q) (e : StateEntry) : Prop :=
  (state_ttl < now - updated_at e)%Q.

Definition set_entries (self : ContextWindow) (es : list CommandEntry)
  : ContextWindow :=
  mkContextWindow (max_entries self) (time_window self) es.

Definition set_system_state (self : ContextManager)
    (st : gmap string StateEntry) : ContextManager :=
  mkContextManager (conversation_context self) st (user_preferences self).

Section ContextStore.
Context {World : Type} `{Host World}.

(** [ContextWindow._prune_old_entries] *)
Definition _prune_old_entries (self : ContextWindow)
  : M World ContextWindow :=
  let self :=
    if (max_entries self <? Z.of_nat (length (entries self)))%Z
    then set_entries self (slice_from (- max_entries self) (entries self))
    else self in
  let* now := time_time in
  let cutoff_time := (now - inject_Z (time_window self))%Q in
  ret (set_entries self
         (List.filter (fun e => Qle_bool cutoff_time (timestamp e))
            (entries self))).

(** [ContextWindow.add_entry] *)
Definition add_entry (self : ContextWindow) (entry : CommandEntry)
  : M World ContextWindow :=
  _prune_old_entries (set_entries self (entries self ++ [entry])).

(** A sequence of insertions. *)
Fixpoint add_entries (self : ContextWindow) (es : list CommandEntry)
  : M World ContextWindow :=
  match es with
  | [] => ret self
  | e :: es' =>
      let* self := add_entry self e in
      add_entries self es'
  end.

(** [ContextWindow.get_recent_entries]; [None] is the missing count. *)
Definition get_recent_entries (self : ContextWindow) (count : option Z)
  : list CommandEntry :=
  match count with
  | None => entries self
  | Some n => slice_from (- n) (entries self)
  end.

(** [ContextManager.add_command] *)
Definition add_command (self : ContextManager)
    (user_prompt command result screenshot_id : string)
  : M World ContextManager :=
  let* now := time_time in
  let entry := mkCommandEntry now command user_prompt result screenshot_id in
  let* window := add_entry (conversation_context self) entry in
  ret (mkContextManager window (system_state self) (user_preferences self)).

(** [ContextManager.update_system_state] *)
Definition update_system_state (self : ContextManager) (key : string)
    (v : Value) : M World ContextManager :=
  let* now := time_time in
  ret (set_system_state self
         (<[key := mkStateEntry v now]> (system_state self))).

(** [ContextManager.get_system_state]: the answer ([VNone] is Python's
    [None]) and the manager as the call leaves it.  The clock is read
    only for a key that is present. *)
Definition get_system_state (self : ContextManager) (key : string)
  : M World (Value * ContextManager) :=
  match system_state self !! key with
  | None => ret (VNone, self)
  | Some state_entry =>
      let* now := time_time in
      if negb (Qle_bool (now - updated_at state_entry)%Q state_ttl)
      then ret (VNone,
                set_system_state self (delete key (system_state self)))
      else ret (value state_entry, self)
  end.

(** [ContextManager.get_all_system_state]: the answer and the manager
    as the call leaves it; no statement of the body assigns to it. *)
Definition get_all_system_state (self : ContextManager)
    (include_expired : bool)
  : M World (gmap string Value * ContextManager) :=
  if include_expired
  then ret (value <$> system_state self, self)
  else
    let* current_time := time_time in
    ret (value <$>
           filter (fun kv : string * StateEntry =>
                     Is_true (Qle_bool (current_time - updated_at kv.2)%Q
                                state_ttl))
             (system_state self),
         self).

(** [ContextManager.clear]: the three stores are emptied; the window
    keeps its two parameters. *)
Definition clear (self : ContextManager) : ContextManager :=
  mkContextManager (set_entries (conversation_context self) []) ∅ ∅.

(** [ContextManager.set_user_preference], [get_user_preference] *)
Definition set_user_preference (self : ContextManager) (key : string)
    (v : Value) : ContextManager :=
  mkContextManager (conversation_context self) (system_state self)
    (<[key := v]> (user_preferences self)).

Definition get_user_preference (self : ContextManager) (key : string)
    (default : Value) : Value :=
  dict_get (user_preferences self) key default.

End ContextStore.

End context_manager.

(** ** A host to run the program on

    Uuids are numbered, the two clocks are fields of the world (the
    [datetime] clock ticks at every reading), every call of an action is
    logged, every sleep is counted, and the world says how each action
    ends. *)

Module simulated_host.
Import PyVal host response command_executor.

Record SimWorld : Type := mkSimWorld {
  uuids_drawn : nat;
  wall_clock : Z;
  unix_time : Q;
  action_log : list Action;
  sleeps : nat;
  ending : Action -> Outcome
}.

#[global] Instance sim_host : Host SimWorld := {|
  uuid4 w :=
    ("uuid-" +:+ pretty (uuids_drawn w),
     mkSimWorld (S (uuids_drawn w)) (wall_clock w) (unix_time w)
       (action_log w) (sleeps w) (ending w));
  datetime_now w :=
    (wall_clock w,
     mkSimWorld (uuids_drawn w) (wall_clock w + 1) (unix_time w)
       (action_log w) (sleeps w) (ending w));
  time_time w := (unix_time w, w);
  perform a w :=
    (ending w a,
     mkSimWorld (uuids_drawn w) (wall_clock w) (unix_time w)
       (action_log w ++ [a]) (sleeps w) (ending w));
  time_sleep w :=
    mkSimWorld (uuids_drawn w) (wall_clock w) (unix_time w)
      (action_log w) (S (sleeps w)) (ending w)
|}.

(** Validation without coercion. *)
Definition all_strings (l : list Value) : bool :=
  forallb (fun v => match v with VStr _ => true | _ => false end) l.

#[global] Instance strict_pydantic : Pydantic := {|
  validate_int v := match v with VInt _ => Some v | _ => None end;
  validate_float v :=
    match v with
    | VFloat _ => Some v
    | VInt z => Some (VFloat (inject_Z z))
    | _ => None
    end;
  validate_str v := match v with VStr _ => Some v | _ => None end;
  validate_str_list v :=
    match v with
    | VList l => if all_strings l then Some v else None
    | _ => None
    end;
  str_of_call fc := name fc
|}.

(** An entry of the history stamped [t], a window without entries, and a
    manager whose state holds [mode], written at time 0. *)
Definition entry_at (t : Q) : context_manager.CommandEntry :=
  context_manager.mkCommandEntry t "pyautogui.click()" "click" "ok" "shot".

Definition empty_window (max_entries time_window : Z)
  : context_manager.ContextWindow :=
  context_manager.mkContextWindow max_entries time_window [].

Definition stale_manager : context_manager.ContextManager :=
  context_manager.mkContextManager (empty_window 10 3600)
    (<["mode" := context_manager.mkStateEntry (VStr "dark") 0%Q]> ∅) ∅.

(** A world where every action returns, and one where printing raises. *)
Definition calm (now : Q) : SimWorld :=
  mkSimWorld 0 0%Z now [] 0 (fun _ => Returned).

Definition broken_output : SimWorld :=
  mkSimWorld 0 0%Z 0%Q [] 0
    (fun a => match a with print _ => RaisedOther | _ => Returned end).

(** Commands to run: a click, a typing of nothing, a print, and the
    composite of given sub-commands. *)
Definition leaf (id : string) (type : command.CommandType)
    (data : gmap string Value) : command.Command :=
  command.mkCommand id type command.PENDING 0%Z None None "u" "" None None
    data [].

Definition a_click : command.Command :=
  leaf "click" command.MOUSE_CLICK command.MouseClickCommand.

Definition a_blank_typing : command.Command :=
  leaf "typing" command.KEYBOARD_TYPE
    (command.KeyboardTypeCommand (VStr "")).

Definition a_print : command.Command :=
  leaf "print" command.PRINT_OUTPUT
    (command.PrintOutputCommand (VStr "done")).

(** A run of [n] digits. *)
Fixpoint digit_run (n : nat) : string :=
  match n with
  | O => EmptyString
  | S k => String "7" (digit_run k)
  end.

Definition composite_of (subs : list command.Command) : command.Command :=
  command.mkCommand "root" command.COMPOSITE command.PENDING 0%Z None None
    "u" "" None None ∅ subs.

(** The reply of a generator that gives up, as the client wraps it: the
    sentinel on a line of its own, the retry flag in the metadata. *)
Definition sentinel_reply (retry : bool) : AIResponse :=
  mkAIResponse "r" COMMAND 0%Z "p"
    (" " ++ error_sentinel ++ String PyStr.linefeed "") None []
    "gemini-1.5-flash" (<["retry" := VBool retry]> ∅).

(** A text response and a function-call response. *)
Definition text_response (raw : string) : AIResponse :=
  mkAIResponse "r" COMMAND 0%Z "p" raw None [] "gemini-1.5-flash" ∅.

Definition call_response (calls : list FunctionCall) : AIResponse :=
  mkAIResponse "r" FUNCTION_CALL 0%Z "p" "" None calls "gemini-1.5-flash" ∅.

End simulated_host.

(** * Properties *)

Import PyStr PyVal host command response re command_executor simulated_host.

(** Unfolding the computations over the world. *)
Ltac run_m := unfold bind, ret, lift in *; simpl in *.

(** ** The life cycle of a command *)

Section Lifecycle.
Context {World : Type} `{Host World}.

(** One transition, field by field. *)
Lemma update_status_fields (c : Command) (st : CommandStatus)
    (err : option string) (w : World) :
  let c' := fst (update_status c st err w) in
  status c' = st
  /\ executed_at c' =
       (if bool_decide (st = EXECUTING)
        then Some (default (fst (datetime_now w)) (executed_at c))
        else executed_at c)
  /\ completed_at c' =
       (if bool_decide (st = COMPLETED)
        then Some (default (fst (datetime_now w)) (completed_at c))
        else completed_at c)
  /\ error_message c' =
       (if bool_decide (st = FAILED) then err else error_message c).
Proof.
  unfold update_status; run_m.
  destruct st, (executed_at c) as [te|] eqn:He,
    (completed_at c) as [tc|] eqn:Hc;
    simpl; rewrite ?He, ?Hc; simpl;
    try destruct (datetime_now w) as [now w1]; simpl; auto.
Qed.

(** The fields no transition writes. *)
Lemma update_status_frame (c : Command) (st : CommandStatus)
    (err : option string) (w : World) :
  let c' := fst (update_status c st err w) in
  command.id c' = command.id c
  /\ command.type c' = command.type c
  /\ command.created_at c' = command.created_at c
  /\ user_prompt c' = user_prompt c
  /\ raw_response c' = raw_response c
  /\ command.screenshot_id c' = command.screenshot_id c
  /\ data c' = data c
  /\ sub_commands c' = sub_commands c.
Proof.
  unfold update_status; run_m.
  destruct st, (executed_at c) as [te|] eqn:He,
    (completed_at c) as [tc|] eqn:Hc;
    simpl; rewrite ?He, ?Hc; simpl;
    try destruct (datetime_now w) as [now w1]; simpl; auto 10.
Qed.

Lemma update_status_seq_cons (c : Command) (st : CommandStatus)
    (err : option string) (ts : list (CommandStatus * option string))
    (w : World) :
  update_status_seq c ((st, err) :: ts) w =
  update_status_seq (fst (update_status c st err w)) ts
    (snd (update_status c st err w)).
Proof.
  simpl. unfold bind. destruct (update_status c st err w); reflexivity.
Qed.

(** A timestamp that is set survives every sequence of transitions. *)
Lemma executed_at_kept (ts : list (CommandStatus * option string)) :
  forall (c : Command) (w : World) (t : datetime),
    executed_at c = Some t ->
    executed_at (fst (update_status_seq c ts w)) = Some t.
Proof.
  induction ts as [|[st err] ts IH]; intros c w t Ht; [exact Ht|].
  rewrite update_status_seq_cons. apply IH.
  destruct (update_status_fields c st err w) as (_ & He & _).
  simpl in He. rewrite He, Ht. case_bool_decide; reflexivity.
Qed.

Lemma completed_at_kept (ts : list (CommandStatus * option string)) :
  forall (c : Command) (w : World) (t : datetime),
    completed_at c = Some t ->
    completed_at (fst (update_status_seq c ts w)) = Some t.
Proof.
  induction ts as [|[st err] ts IH]; intros c w t Ht; [exact Ht|].
  rewrite update_status_seq_cons. apply IH.
  destruct (update_status_fields c st err w) as (_ & _ & Hc & _).
  simpl in Hc. rewrite Hc, Ht. case_bool_decide; reflexivity.
Qed.

(** C6, as the code has it.  A transition stores the new status.  Moving
    to Executing sets [executed_at] from the clock only if it is unset;
    moving to Completed sets [completed_at] from the clock only if it is
    unset; moving to Failed leaves [completed_at] as it was and always
    overwrites [error_message] with the supplied message; no other
    transition touches these fields.  Once a first transition to
    Executing (to Completed) has been made, no later sequence of
    transitions changes [executed_at] ([completed_at]). *)
Theorem update_status_transitions :
  (forall (c : Command) (err : option string) (w : World),
      let c' := fst (update_status c EXECUTING err w) in
      status c' = EXECUTING
      /\ executed_at c' =
           Some (default (fst (datetime_now w)) (executed_at c))
      /\ completed_at c' = completed_at c
      /\ error_message c' = error_message c)
  /\ (forall (c : Command) (err : option string) (w : World),
      let c' := fst (update_status c COMPLETED err w) in
      status c' = COMPLETED
      /\ executed_at c' = executed_at c
      /\ completed_at c' =
           Some (default (fst (datetime_now w)) (completed_at c))
      /\ error_message c' = error_message c)
  /\ (forall (c : Command) (err : option string) (w : World),
      let c' := fst (update_status c FAILED err w) in
      status c' = FAILED
      /\ executed_at c' = executed_at c
      /\ completed_at c' = completed_at c
      /\ error_message c' = err)
  /\ (forall (c : Command) (err : option string) (w w' : World)
             (ts : list (CommandStatus * option string)),
      let c' := fst (update_status c EXECUTING err w) in
      executed_at (fst (update_status_seq c' ts w')) = executed_at c')
  /\ (forall (c : Command) (err : option string) (w w' : World)
             (ts : list (CommandStatus * option string)),
      let c' := fst (update_status c COMPLETED err w) in
      completed_at (fst (update_status_seq c' ts w')) = completed_at c').
Proof.
  repeat split; intros;
    try (destruct (update_status_fields c EXECUTING err w)
           as (H1 & H2 & H3 & H4); simpl in *; congruence);
    try (destruct (update_status_fields c COMPLETED err w)
           as (H1 & H2 & H3 & H4); simpl in *; congruence);
    try (destruct (update_status_fields c FAILED err w)
           as (H1 & H2 & H3 & H4); simpl in *; congruence).
  - destruct (update_status_fields c EXECUTING err w) as (_ & He & _).
    simpl in He. subst c'. rewrite He. apply executed_at_kept. exact He.
  - destruct (update_status_fields c COMPLETED err w) as (_ & _ & Hc & _).
    simpl in Hc. subst c'. rewrite Hc. apply completed_at_kept. exact Hc.
Qed.

End Lifecycle.

(** C6 as the specification words it fails on the transition to Failed: a
    command that was never completed is moved to Failed, and its
    [completed_at] is still unset, although the clock was there to read. *)
Lemma update_status_failed_completed_unset :
  let c := mkCommand "c" MOUSE_CLICK EXECUTING 0%Z (Some 1%Z) None "u"
             "pyautogui.click()" None None MouseClickCommand [] in
  let c' := fst (update_status c FAILED (Some "boom") (calm 0%Q)) in
  completed_at c = None
  /\ status c' = FAILED
  /\ completed_at c' <> Some (fst (datetime_now (calm 0%Q)))
  /\ completed_at c' = None.
Proof. vm_compute. repeat split; congruence. Qed.

(** ** The composite executor *)

Section Composite.
Context {World : Type} `{Host World} `{Pydantic}.

Lemma forallb_lookup_false {A : Type} (f : A -> bool) (l : list A)
    (i : nat) (x : A) :
  l !! i = Some x -> f x = false -> forallb f l = false.
Proof.
  revert i. induction l as [|a l IH]; intros [|i] Hi Hf; simpl in *;
    try discriminate.
  - injection Hi as ->. rewrite Hf. reflexivity.
  - rewrite (IH i Hi Hf). apply andb_false_r.
Qed.

Lemma composite_loop_nil (success : bool) (w : World) :
  composite_loop success [] w = ((success, []), w).
Proof. reflexivity. Qed.

(** One turn of the loop. *)
Lemma composite_loop_cons (success : bool) (sub : Command)
    (rest : list Command) (w : World) :
  let b := fst (_execute_single_command sub w) in
  let w1 := snd (_execute_single_command sub w) in
  composite_loop success (sub :: rest) w =
  if halts (sub, b) then ((success && b, [(sub, b)]), w1)
  else
    let r := composite_loop (success && b) rest (time_sleep w1) in
    ((fst (fst r), (sub, b) :: snd (fst r)), snd r).
Proof.
  simpl. unfold bind, ret, lift, halts. simpl.
  destruct (_execute_single_command sub w) as [b w1]. simpl.
  destruct (negb b && _); [reflexivity|].
  destruct (composite_loop (success && b) rest (time_sleep w1))
    as [[s tr] w2]. reflexivity.
Qed.

(** The trace is a prefix of the sub-commands, in their order. *)
Lemma composite_trace_prefix (subs : list Command) :
  forall (success : bool) (w : World),
    map fst (snd (fst (composite_loop success subs w))) `prefix_of` subs.
Proof.
  induction subs as [|sub rest IH]; intros success w.
  - simpl. reflexivity.
  - rewrite composite_loop_cons. simpl.
    destruct (halts _); simpl.
    + apply prefix_cons, prefix_nil.
    + apply prefix_cons, IH.
Qed.

(** The flag is the conjunction over every entry of the trace. *)
Lemma composite_success_and (subs : list Command) :
  forall (success : bool) (w : World),
    fst (fst (composite_loop success subs w)) =
    success && forallb snd (snd (fst (composite_loop success subs w))).
Proof.
  induction subs as [|sub rest IH]; intros success w.
  - simpl. destruct success; reflexivity.
  - rewrite composite_loop_cons. simpl.
    destruct (halts _); simpl.
    + rewrite andb_true_r. reflexivity.
    + rewrite IH. rewrite andb_assoc. reflexivity.
Qed.

(** A halting entry is the last one. *)
Lemma composite_halt_is_last (subs : list Command) :
  forall (success : bool) (w : World) (i : nat) (entry : Command * bool),
    snd (fst (composite_loop success subs w)) !! i = Some entry ->
    halts entry = true ->
    length (snd (fst (composite_loop success subs w))) = S i.
Proof.
  induction subs as [|sub rest IH]; intros success w i entry.
  - simpl. intros Hi. discriminate Hi.
  - rewrite composite_loop_cons. simpl.
    destruct (halts (sub, _)) eqn:Hh; simpl.
    + destruct i as [|i]; simpl; [reflexivity|]. intros Hi. discriminate Hi.
    + destruct i as [|i]; simpl.
      * intros [= <-] Hh'. congruence.
      * intros Hi Hh'. f_equal. eapply IH; eassumption.
Qed.

(** The walk ends because the sub-commands are exhausted or because the
    last one attempted halts it. *)
Lemma composite_complete_or_halted (subs : list Command) :
  forall (success : bool) (w : World),
    let trace := snd (fst (composite_loop success subs w)) in
    map fst trace = subs
    \/ exists entry, last trace = Some entry /\ halts entry = true.
Proof.
  induction subs as [|sub rest IH]; intros success w.
  - left. reflexivity.
  - cbv zeta. rewrite composite_loop_cons. simpl.
    destruct (halts (sub, _)) eqn:Hh; simpl.
    + right. eexists. split; [reflexivity | exact Hh].
    + destruct (IH (success && fst (_execute_single_command sub w))
                  (time_sleep (snd (_execute_single_command sub w))))
        as [Hall | (entry & Hlast & Hhalt)].
      * left. simpl. f_equal. exact Hall.
      * right. exists entry. split; [|exact Hhalt].
        rewrite last_cons, Hlast. reflexivity.
Qed.

(** After an entry that does not halt, the next sub-command, if there is
    one, is attempted. *)
Lemma composite_next_attempted (subs : list Command) :
  forall (success : bool) (w : World) (i : nat) (entry : Command * bool),
    snd (fst (composite_loop success subs w)) !! i = Some entry ->
    halts entry = false ->
    fst <$> snd (fst (composite_loop success subs w)) !! S i = subs !! S i.
Proof.
  induction subs as [|sub rest IH]; intros success w i entry.
  - simpl. intros Hi. discriminate Hi.
  - rewrite composite_loop_cons. simpl.
    destruct (halts (sub, _)) eqn:Hh; simpl.
    + destruct i as [|i]; simpl.
      * intros [= <-] Hh'. congruence.
      * intros Hi. discriminate Hi.
    + destruct i as [|i]; simpl.
      * intros _ _. destruct rest as [|sub' rest']; [reflexivity|].
        rewrite composite_loop_cons. simpl.
        destruct (halts (sub', _)); reflexivity.
      * intros Hi Hh'. eapply IH; eassumption.
Qed.

Lemma _execute_composite_command_flag (command : Command) (w : World) :
  fst (_execute_composite_command command w) =
  fst (fst (_execute_composite_command_traced command w)).
Proof.
  unfold _execute_composite_command, bind, ret.
  destruct (_execute_composite_command_traced command w) as [[s tr] w'].
  reflexivity.
Qed.

(** The function answers the flag of the loop and leaves its world. *)
Lemma _execute_composite_command_eq (command : Command) (w : World) :
  _execute_composite_command command w =
  (fst (fst (composite_loop true (sub_commands command) w)),
   snd (composite_loop true (sub_commands command) w)).
Proof.
  unfold _execute_composite_command, _execute_composite_command_traced,
    bind, ret.
  destruct (composite_loop true (sub_commands command) w) as [[s tr] w'].
  reflexivity.
Qed.

Lemma world_after_take_S (subs : list Command) :
  forall (w : World) (j : nat) (sub : Command),
    subs !! j = Some sub ->
    world_after (take (S j) subs) w =
    time_sleep
      (snd (_execute_single_command sub (world_after (take j subs) w))).
Proof.
  induction subs as [|s rest IH]; intros w j sub Hj.
  - discriminate.
  - destruct j as [|j].
    + simpl in Hj. injection Hj as ->. destruct rest; reflexivity.
    + simpl in Hj. change (take (S (S j)) (s :: rest))
        with (s :: take (S j) rest).
      change (take (S j) (s :: rest)) with (s :: take j rest).
      cbn [world_after]. apply IH. exact Hj.
Qed.

(** Every entry of the trace is a real call: the entry at position [j]
    holds the sub-command at position [j] and what
    [_execute_single_command] returns for it in the world left by the
    calls before it, each with its sleep. *)
Lemma composite_trace_sound (subs : list Command) :
  forall (success : bool) (w : World) (j : nat) (s : Command) (b : bool),
    snd (fst (composite_loop success subs w)) !! j = Some (s, b) ->
    subs !! j = Some s
    /\ b = fst (_execute_single_command s (world_after (take j subs) w)).
Proof.
  induction subs as [|sub rest IH]; intros success w j s b Hj.
  - simpl in Hj. discriminate.
  - rewrite composite_loop_cons in Hj. cbv zeta in Hj.
    destruct (halts _) eqn:Hh; cbn [fst snd] in Hj.
    + destruct j as [|j]; [|discriminate].
      simpl in Hj. injection Hj as <- <-. split; reflexivity.
    + destruct j as [|j].
      * simpl in Hj. injection Hj as <- <-. split; reflexivity.
      * simpl in Hj. apply IH in Hj as [Hs Hb]. split; [exact Hs|].
        exact Hb.
Qed.

Lemma world_at_end_cons (sub : Command) (rest : list Command)
    (n : nat) (w : World) :
  halts (sub, fst (_execute_single_command sub w)) = false ->
  world_at_end (sub :: rest) (S n) w =
  world_at_end rest n (time_sleep (snd (_execute_single_command sub w))).
Proof.
  intros Hh. destruct n as [|k].
  - unfold world_at_end. simpl. rewrite Hh. reflexivity.
  - unfold world_at_end. simpl. destruct (rest !! k); reflexivity.
Qed.

(** The world the loop leaves is that of its calls and sleeps, and of
    nothing else. *)
Lemma composite_loop_world (subs : list Command) :
  forall (success : bool) (w : World),
    snd (composite_loop success subs w) =
    world_at_end subs
      (length (snd (fst (composite_loop success subs w)))) w.
Proof.
  induction subs as [|sub rest IH]; intros success w.
  - reflexivity.
  - rewrite composite_loop_cons. cbv zeta.
    destruct (halts _) eqn:Hh; cbn [fst snd length].
    + unfold world_at_end. simpl. rewrite Hh. reflexivity.
    + rewrite world_at_end_cons by exact Hh. apply IH.
Qed.

(** C1.  The sub-commands of a composite are handed to
    [_execute_single_command] in their order, each in the world left by
    the calls before it and their sleeps; when the one at position [i]
    returns failure and is not a print, the sub-commands attempted are
    exactly those at positions [0..i], none after it, and
    [_execute_composite_command] returns false in the world that failed
    call leaves, with no sleep and no call after it. *)
Theorem composite_fail_fast (command : Command) (w : World) (i : nat)
    (sub : Command) :
  let success := fst (_execute_composite_command command w) in
  let trace := snd (fst (_execute_composite_command_traced command w)) in
  let w_i := world_after (take i (sub_commands command)) w in
  trace !! i = Some (sub, false) ->
  command.type sub <> PRINT_OUTPUT ->
  (map fst trace `prefix_of` sub_commands command
   /\ map fst trace = take (S i) (sub_commands command)
   /\ sub_commands command !! i = Some sub
   /\ success = false)
  /\ (forall (j : nat) (s : Command) (b : bool),
        trace !! j = Some (s, b) ->
        sub_commands command !! j = Some s
        /\ b = fst (_execute_single_command s
                      (world_after (take j (sub_commands command)) w)))
  /\ fst (_execute_single_command sub w_i) = false
  /\ _execute_composite_command command w =
     (false, snd (_execute_single_command sub w_i)).
Proof.
  intros success trace w_i Hi Hty.
  assert (Hpre : map fst trace `prefix_of` sub_commands command)
    by apply composite_trace_prefix.
  assert (Hhalt : halts (sub, false) = true).
  { unfold halts. simpl. rewrite bool_decide_eq_false_2 by exact Hty.
    reflexivity. }
  assert (Hlen : length trace = S i).
  { eapply composite_halt_is_last; [exact Hi | exact Hhalt]. }
  assert (Htake : map fst trace = take (S i) (sub_commands command)).
  { destruct Hpre as [k Hk]. rewrite Hk.
    rewrite take_app_length'; [reflexivity|].
    rewrite length_map. symmetry. exact Hlen. }
  assert (Hsub : sub_commands command !! i = Some sub).
  { assert (Hm : map fst trace !! i = Some sub)
      by (rewrite list_lookup_fmap, Hi; reflexivity).
    rewrite Htake in Hm. rewrite lookup_take_lt in Hm by lia. exact Hm. }
  assert (Hflag : success = false).
  { subst success. rewrite _execute_composite_command_flag.
    unfold _execute_composite_command_traced.
    rewrite composite_success_and. simpl.
    apply (forallb_lookup_false snd _ i (sub, false));
      [exact Hi | reflexivity]. }
  assert (Hrun : fst (_execute_single_command sub w_i) = false).
  { symmetry.
    exact (proj2 (composite_trace_sound _ _ _ _ _ _ Hi)). }
  split; [repeat split; assumption|].
  split; [intros j s b Hj; exact (composite_trace_sound _ _ _ _ _ _ Hj)|].
  split; [exact Hrun|].
  rewrite _execute_composite_command_eq.
  f_equal.
  - subst success. rewrite _execute_composite_command_eq in Hflag.
    exact Hflag.
  - rewrite composite_loop_world.
    change (snd (fst (composite_loop true (sub_commands command) w)))
      with trace.
    rewrite Hlen. unfold world_at_end. rewrite Hsub. cbv zeta.
    fold w_i. rewrite Hrun, Hhalt. reflexivity.
Qed.

(** C2.  When the sub-command at position [i] is a print and returns
    failure, the walk goes on: after the sleep the next sub-command, if
    there is one, is handed to [_execute_single_command], and the walk
    ends only when the sub-commands are exhausted or a sub-command that
    is not a print fails.  [_execute_composite_command] returns the
    conjunction over every sub-command attempted, the failed print
    included, hence false, in the world left by all the calls made. *)
Theorem composite_print_fail_soft (command : Command) (w : World)
    (i : nat) (sub : Command) :
  let success := fst (_execute_composite_command command w) in
  let trace := snd (fst (_execute_composite_command_traced command w)) in
  let w_i := world_after (take i (sub_commands command)) w in
  trace !! i = Some (sub, false) ->
  command.type sub = PRINT_OUTPUT ->
  (fst <$> trace !! S i = sub_commands command !! S i
   /\ (map fst trace = sub_commands command
       \/ exists entry, last trace = Some entry /\ entry.2 = false
                        /\ command.type entry.1 <> PRINT_OUTPUT)
   /\ success = forallb snd trace
   /\ success = false)
  /\ (forall (j : nat) (s : Command) (b : bool),
        trace !! j = Some (s, b) ->
        sub_commands command !! j = Some s
        /\ b = fst (_execute_single_command s
                      (world_after (take j (sub_commands command)) w)))
  /\ fst (_execute_single_command sub w_i) = false
  /\ (forall next : Command,
        sub_commands command !! S i = Some next ->
        trace !! S i =
        Some (next,
              fst (_execute_single_command next
                     (time_sleep (snd (_execute_single_command sub w_i))))))
  /\ (S i <= length trace <= length (sub_commands command))%nat
  /\ _execute_composite_command command w =
     (false, world_at_end (sub_commands command) (length trace) w).
Proof.
  intros success trace w_i Hi Hty.
  assert (Hand : success = forallb snd trace).
  { subst success trace. rewrite _execute_composite_command_flag.
    unfold _execute_composite_command_traced.
    rewrite composite_success_and. reflexivity. }
  assert (Hflag : success = false).
  { rewrite Hand.
    apply (forallb_lookup_false snd _ i (sub, false));
      [exact Hi | reflexivity]. }
  assert (Hnext : fst <$> trace !! S i = sub_commands command !! S i).
  { eapply composite_next_attempted; [exact Hi|].
    unfold halts. simpl. rewrite bool_decide_eq_true_2 by exact Hty.
    reflexivity. }
  pose proof (composite_trace_sound _ _ _ _ _ _ Hi) as [Hsub Hrun].
  fold w_i in Hrun.
  split; [repeat split|].
  - exact Hnext.
  - destruct (composite_complete_or_halted (sub_commands command) true w)
      as [Hall | (entry & Hlast & Hhalt)]; [left; exact Hall|].
    right. exists entry. split; [exact Hlast|].
    unfold halts in Hhalt. apply andb_prop in Hhalt as [Hb Hp].
    split.
    + destruct (entry.2); [discriminate | reflexivity].
    + intros Heq. rewrite bool_decide_eq_true_2 in Hp by exact Heq.
      discriminate.
  - exact Hand.
  - exact Hflag.
  - split; [intros j s b Hj; exact (composite_trace_sound _ _ _ _ _ _ Hj)|].
    split; [symmetry; exact Hrun|].
    split.
    { intros next Hn. rewrite Hn in Hnext.
      destruct (trace !! S i) as [[s b]|] eqn:Hs; [|discriminate].
      simpl in Hnext. injection Hnext as ->.
      pose proof (composite_trace_sound _ _ _ _ _ _ Hs) as [_ Hb].
      rewrite (world_after_take_S _ _ _ _ Hsub) in Hb. fold w_i in Hb.
      rewrite Hb. reflexivity. }
    split.
    { split.
      - apply lookup_lt_Some in Hi. lia.
      - pose proof (composite_trace_prefix (sub_commands command) true w)
          as Hpre.
        apply prefix_length in Hpre. rewrite length_map in Hpre.
        exact Hpre. }
    rewrite _execute_composite_command_eq. f_equal.
    + subst success. rewrite _execute_composite_command_eq in Hflag.
      exact Hflag.
    + apply composite_loop_world.
Qed.

End Composite.

(** C1 on a run: a click, a typing of nothing (which fails without any
    call), a click.  The second sub-command halts the walk: the world is
    left as the first click and its sleep made it. *)
Lemma composite_fail_fast_witness :
  let command := composite_of [a_click; a_blank_typing; a_click] in
  let w := calm 0%Q in
  let success := fst (_execute_composite_command command w) in
  let trace := snd (fst (_execute_composite_command_traced command w)) in
  let w_i := world_after (take 1 (sub_commands command)) w in
  (map fst trace `prefix_of` sub_commands command
   /\ map fst trace = take 2 (sub_commands command)
   /\ sub_commands command !! 1%nat = Some a_blank_typing
   /\ success = false)
  /\ (forall (j : nat) (s : Command) (b : bool),
        trace !! j = Some (s, b) ->
        sub_commands command !! j = Some s
        /\ b = fst (_execute_single_command s
                      (world_after (take j (sub_commands command)) w)))
  /\ fst (_execute_single_command a_blank_typing w_i) = false
  /\ _execute_composite_command command w =
     (false, snd (_execute_single_command a_blank_typing w_i)).
Proof.
  apply (composite_fail_fast
           (composite_of [a_click; a_blank_typing; a_click]) (calm 0%Q)
           1 a_blank_typing).
  - vm_compute. reflexivity.
  - vm_compute. discriminate.
Defined.

(** C2 on a run where the output channel is broken: the print fails, the
    click after it is still made, after the sleep, and the composite is
    reported failed. *)
Lemma composite_print_fail_soft_witness :
  let command := composite_of [a_print; a_click] in
  let w := broken_output in
  let success := fst (_execute_composite_command command w) in
  let trace := snd (fst (_execute_composite_command_traced command w)) in
  let w_i := world_after (take 0 (sub_commands command)) w in
  (fst <$> trace !! 1%nat = sub_commands command !! 1%nat
   /\ (map fst trace = sub_commands command
       \/ exists entry, last trace = Some entry /\ entry.2 = false
                        /\ command.type entry.1 <> PRINT_OUTPUT)
   /\ success = forallb snd trace
   /\ success = false)
  /\ (forall (j : nat) (s : Command) (b : bool),
        trace !! j = Some (s, b) ->
        sub_commands command !! j = Some s
        /\ b = fst (_execute_single_command s
                      (world_after (take j (sub_commands command)) w)))
  /\ fst (_execute_single_command a_print w_i) = false
  /\ (forall next : Command,
        sub_commands command !! 1%nat = Some next ->
        trace !! 1%nat =
        Some (next,
              fst (_execute_single_command next
                     (time_sleep
                        (snd (_execute_single_command a_print w_i))))))
  /\ (1 <= length trace <= length (sub_commands command))%nat
  /\ _execute_composite_command command w =
     (false, world_at_end (sub_commands command) (length trace) w).
Proof.
  apply (composite_print_fail_soft (composite_of [a_print; a_click])
           broken_output 0 a_print).
  - vm_compute. reflexivity.
  - vm_compute. reflexivity.
Defined.

Example print_failure_does_not_halt :
  snd (fst (_execute_composite_command_traced
              (composite_of [a_print; a_click]) broken_output))
  = [(a_print, false); (a_click, true)].
Proof. vm_compute. reflexivity. Qed.

(** What the two runs leave behind.  Halted by the typing of nothing,
    the composite has made the first click and slept once; the last
    click is never made. *)
Example fail_fast_makes_no_later_call :
  let run := _execute_composite_command
               (composite_of [a_click; a_blank_typing; a_click])
               (calm 0%Q) in
  fst run = false
  /\ action_log (snd run) = [pyautogui_click (VStr "left") (VInt 1)]
  /\ sleeps (snd run) = 1%nat.
Proof. vm_compute. repeat split. Qed.

(** With the failing print the click is made, and each of the two calls
    is followed by its sleep. *)
Example print_failure_makes_the_next_call :
  let run := _execute_composite_command
               (composite_of [a_print; a_click]) broken_output in
  fst run = false
  /\ action_log (snd run) =
     [print (VStr "done"); pyautogui_click (VStr "left") (VInt 1)]
  /\ sleeps (snd run) = 2%nat.
Proof. vm_compute. repeat split. Qed.

(** A failing print, then a sub-command that halts: the walk passes the
    print and stops at the typing of nothing. *)
Example print_failure_then_halt :
  let run := _execute_composite_command
               (composite_of [a_click; a_print; a_blank_typing; a_click])
               broken_output in
  fst run = false
  /\ action_log (snd run) =
     [pyautogui_click (VStr "left") (VInt 1); print (VStr "done")]
  /\ sleeps (snd run) = 2%nat.
Proof. vm_compute. repeat split. Qed.

(** ** The parser *)

Section Parser.
Context {World : Type} `{Host World} `{Pydantic}.

(** Every command the parser builds comes out of [new_Command]. *)
Lemma new_Command_eq (cid : string) (ty : CommandType)
    (st : CommandStatus) (p raw : string) (err sid : option string)
    (d : gmap string Value) (w : World) :
  new_Command cid ty st p raw err sid d w =
  (mkCommand cid ty st (fst (datetime_now w)) None None p raw err sid d [],
   snd (datetime_now w)).
Proof.
  unfold new_Command, bind, ret. destruct (datetime_now w). reflexivity.
Qed.

(** The shape of what [_parse_single_command] answers: a pending
    primitive command with the drawn uuid, the stripped fragment as its
    source, no diagnostic and no sub-command. *)
Lemma _parse_single_command_shape (text p : string) (sid : option string)
    (w : World) (c : Command) :
  fst (_parse_single_command text p sid w) = Some c ->
  exists (ty : CommandType) (d : gmap string Value),
    c = mkCommand (fst (uuid4 w)) ty PENDING
          (fst (datetime_now (snd (uuid4 w)))) None None p (strip text)
          None sid d []
    /\ ty <> UNKNOWN /\ ty <> COMPOSITE.
Proof.
  unfold _parse_single_command, bind, ret.
  destruct (uuid4 w) as [cid w1]. cbv beta zeta.
  intros Hc.
  repeat case_match; simpl in Hc; try discriminate;
    injection Hc as <-;
    match goal with
    | Hn : new_Command _ _ _ _ _ _ _ _ _ = _ |- _ =>
        rewrite new_Command_eq in Hn; injection Hn as <- <-
    end;
    do 2 eexists; (split; [reflexivity|]); split; discriminate.
Qed.

Lemma extend_sub_commands_nil (c : Command) : extend_sub_commands c [] = c.
Proof.
  destruct c. unfold extend_sub_commands. simpl.
  rewrite app_nil_r. reflexivity.
Qed.

Lemma extend_append (c sub : Command) (subs : list Command) :
  extend_sub_commands (append_sub_command c sub) subs =
  extend_sub_commands c (sub :: subs).
Proof.
  unfold extend_sub_commands, append_sub_command. simpl.
  rewrite <- app_assoc. reflexivity.
Qed.

(** The loop over the fragments appends, in their order, the results
    that are commands. *)
Lemma parse_sub_commands_eq (texts : list string) (p : string)
    (sid : option string) :
  forall (c : Command) (w : World),
    parse_sub_commands c texts p sid w =
    (extend_sub_commands c
       (commands_of (fst (per_fragment_results texts p sid w))),
     snd (per_fragment_results texts p sid w)).
Proof.
  induction texts as [|t rest IH]; intros c w; simpl.
  - unfold ret. simpl. rewrite extend_sub_commands_nil. reflexivity.
  - destruct (is_empty t); [apply IH|].
    unfold bind, ret.
    destruct (_parse_single_command t p sid w) as [[sub|] w1]; rewrite IH;
      destruct (per_fragment_results rest p sid w1) as [rs w2]; simpl.
    + rewrite extend_append. reflexivity.
    + reflexivity.
Qed.

Lemma parse_function_calls_eq (calls : list FunctionCall) (p : string)
    (sid : option string) :
  forall (c : Command) (w : World),
    parse_function_calls c calls p sid w =
    (extend_sub_commands c
       (commands_of (fst (per_call_results calls p sid w))),
     snd (per_call_results calls p sid w)).
Proof.
  induction calls as [|fc rest IH]; intros c w; simpl.
  - unfold ret. simpl. rewrite extend_sub_commands_nil. reflexivity.
  - unfold bind, ret.
    destruct (_parse_function_call fc p sid w) as [[sub|] w1]; rewrite IH;
      destruct (per_call_results rest p sid w1) as [rs w2]; simpl.
    + rewrite extend_append. reflexivity.
    + reflexivity.
Qed.

Lemma _parse_single_command_leaf (text p : string) (sid : option string)
    (w : World) (c : Command) :
  fst (_parse_single_command text p sid w) = Some c -> parsed_leaf c.
Proof.
  intros Hc. apply _parse_single_command_shape in Hc
    as (ty & d & -> & Hu & Hk).
  repeat split; assumption.
Qed.

Lemma _parse_function_call_leaf (fc : FunctionCall) (p : string)
    (sid : option string) (w : World) (c : Command) :
  fst (_parse_function_call fc p sid w) = Some c -> parsed_leaf c.
Proof.
  unfold _parse_function_call, bind, ret.
  destruct (uuid4 w) as [cid w1]. cbv beta zeta.
  intros Hc.
  repeat case_match; simpl in Hc; try discriminate;
    injection Hc as <-;
    match goal with
    | Hn : new_Command _ _ _ _ _ _ _ _ _ = _ |- _ =>
        rewrite new_Command_eq in Hn; injection Hn as <- <-
    end;
    repeat split; discriminate.
Qed.

Lemma per_fragment_results_leaves (texts : list string) (p : string)
    (sid : option string) :
  forall (w : World),
    Forall parsed_leaf (commands_of (fst (per_fragment_results texts p sid w))).
Proof.
  induction texts as [|t rest IH]; intros w; simpl; [constructor|].
  destruct (is_empty t); [apply IH|].
  unfold bind, ret.
  destruct (_parse_single_command t p sid w) as [[sub|] w1] eqn:Hp;
    specialize (IH w1);
    destruct (per_fragment_results rest p sid w1) as [rs w2]; simpl in *;
    [|exact IH].
  constructor; [|exact IH].
  apply (_parse_single_command_leaf t p sid w). rewrite Hp. reflexivity.
Qed.

Lemma per_call_results_leaves (calls : list FunctionCall) (p : string)
    (sid : option string) :
  forall (w : World),
    Forall parsed_leaf (commands_of (fst (per_call_results calls p sid w))).
Proof.
  induction calls as [|fc rest IH]; intros w; simpl; [constructor|].
  unfold bind, ret.
  destruct (_parse_function_call fc p sid w) as [[sub|] w1] eqn:Hp;
    specialize (IH w1);
    destruct (per_call_results rest p sid w1) as [rs w2]; simpl in *;
    [|exact IH].
  constructor; [|exact IH].
  apply (_parse_function_call_leaf fc p sid w). rewrite Hp. reflexivity.
Qed.

(** C3.  When the stripped raw text is the error sentinel, the parser
    draws the id of the command, builds an Unknown command in status
    Failed with a non-empty diagnostic, and stops: no fragment is handed
    to the grammar (no further uuid is drawn).  The answer depends on the
    raw text alone: a response that differs elsewhere, as in the retry
    flag of its metadata, parses to the same command. *)
Theorem sentinel_short_circuit (r r' : AIResponse) (p : string)
    (sid : option string) (w : World) :
  strip (raw_text r) = error_sentinel ->
  raw_text r' = raw_text r ->
  let c := fst (parse_text_response r p sid w) in
  parse_text_response r p sid w =
    new_Command (fst (uuid4 w)) UNKNOWN FAILED p (raw_text r)
      (Some "AI detected an error and suggested retry") sid ∅
      (snd (uuid4 w))
  /\ command.type c = UNKNOWN
  /\ status c = FAILED
  /\ (exists msg, error_message c = Some msg /\ msg <> "")
  /\ sub_commands c = []
  /\ parse_text_response r' p sid w = parse_text_response r p sid w.
Proof.
  intros Hs Hr c.
  assert (Heq : forall r0, raw_text r0 = raw_text r ->
            parse_text_response r0 p sid w =
            new_Command (fst (uuid4 w)) UNKNOWN FAILED p (raw_text r)
              (Some "AI detected an error and suggested retry") sid ∅
              (snd (uuid4 w))).
  { intros r0 Hr0. unfold parse_text_response, bind.
    destruct (uuid4 w) as [cid w1]. rewrite Hr0, Hs.
    reflexivity. }
  subst c. rewrite (Heq r' Hr), (Heq r eq_refl), new_Command_eq. simpl.
  repeat split. eexists. split; [reflexivity | discriminate].
Qed.

(** The text of a composite: it holds a semicolon and is not one of the
    two error forms. *)
Lemma parse_text_response_composite (r : AIResponse) (p : string)
    (sid : option string) (w : World) :
  contains ";" (raw_text r) = true ->
  strip (raw_text r) <> error_sentinel ->
  startswith (raw_text r) error_print_prefix = false ->
  let w0 := snd (datetime_now (snd (uuid4 w))) in
  let results :=
    fst (per_fragment_results (map strip (split ";" (raw_text r))) p sid w0)
  in
  fst (parse_text_response r p sid w) =
  mkCommand (fst (uuid4 w)) COMPOSITE PENDING
    (fst (datetime_now (snd (uuid4 w)))) None None p (raw_text r) None sid
    ∅ (commands_of results).
Proof.
  intros Hsemi Hsent Hprint w0 results.
  unfold parse_text_response, bind.
  destruct (uuid4 w) as [cid w1] eqn:Hu.
  apply String.eqb_neq in Hsent. rewrite Hsent, Hprint, Hsemi. simpl.
  rewrite new_Command_eq, parse_sub_commands_eq. simpl.
  reflexivity.
Qed.

(** C5, as the code has it.  A raw text that holds a semicolon and is
    not an error form parses to a pending Composite.  Its children are
    the commands that [_parse_single_command] answers on the stripped,
    non-empty fragments, in the order of the fragments; a fragment on
    which it answers nothing contributes no child and does not stop the
    loop; no child is Unknown and none carries a diagnostic. *)
Theorem composite_text_children (r : AIResponse) (p : string)
    (sid : option string) (w : World) :
  contains ";" (raw_text r) = true ->
  strip (raw_text r) <> error_sentinel ->
  startswith (raw_text r) error_print_prefix = false ->
  let w0 := snd (datetime_now (snd (uuid4 w))) in
  let results :=
    fst (per_fragment_results (map strip (split ";" (raw_text r))) p sid w0)
  in
  let c := fst (parse_text_response r p sid w) in
  command.type c = COMPOSITE
  /\ status c = PENDING
  /\ error_message c = None
  /\ raw_response c = raw_text r
  /\ sub_commands c = commands_of results
  /\ Forall (fun child => command.type child <> UNKNOWN
                          /\ error_message child = None)
       (sub_commands c).
Proof.
  intros Hsemi Hsent Hprint w0 results c.
  subst c. rewrite parse_text_response_composite by assumption. simpl.
  repeat split.
  eapply Forall_impl; [apply per_fragment_results_leaves|].
  intros child (Hu & _ & Hty & _). split; [exact Hty | apply Hu].
Qed.

(** What the executor does to a pending Unknown command. *)
Lemma execute_command_unknown (c : Command) (w : World) :
  command.type c = UNKNOWN ->
  status c = PENDING ->
  let r := fst (execute_command c w) in
  fst r = false
  /\ status (snd r) = FAILED
  /\ error_message (snd r) = Some "Command execution failed".
Proof.
  intros Hty Hst. unfold execute_command.
  rewrite Hst. simpl. unfold bind.
  pose proof (update_status_frame c EXECUTING None w) as Hfr.
  destruct (update_status c EXECUTING None w) as [c1 w1].
  simpl in Hfr. destruct Hfr as (_ & Hty1 & _).
  rewrite Hty1, Hty. simpl. unfold _execute_single_command.
  rewrite Hty1, Hty. unfold ret. simpl.
  pose proof (update_status_fields c1 FAILED
                (Some "Command execution failed") w1) as Hf.
  destruct (update_status c1 FAILED _ w1) as [c2 w2]. simpl in *.
  destruct Hf as (Hs & _ & _ & He). auto.
Qed.

(** C9, as the code has it.  A function-call response without any call
    parses to a single Unknown command that carries the diagnostic
    [No function calls found in response] and is still Pending; it is the
    executor that fails it, answering false and replacing the
    diagnostic. *)
Theorem no_function_calls_unknown (r : AIResponse) (p : string)
    (sid : option string) (w w' : World) :
  function_calls r = [] ->
  let c := fst (parse_function_call_response r p sid w) in
  let run := fst (execute_command c w') in
  command.type c = UNKNOWN
  /\ status c = PENDING
  /\ error_message c = Some "No function calls found in response"
  /\ sub_commands c = []
  /\ data c = ∅
  /\ fst run = false
  /\ status (snd run) = FAILED
  /\ error_message (snd run) = Some "Command execution failed".
Proof.
  intros Hcalls c run.
  assert (Hc : c = mkCommand (fst (uuid4 w)) UNKNOWN PENDING
                 (fst (datetime_now (snd (uuid4 w)))) None None p
                 (raw_text r)
                 (Some "No function calls found in response") sid ∅ []).
  { subst c. unfold parse_function_call_response, bind.
    destruct (uuid4 w) as [cid w1]. rewrite Hcalls, new_Command_eq.
    reflexivity. }
  assert (Hrun := execute_command_unknown c w').
  subst run. rewrite Hc in *. simpl in *.
  destruct (Hrun eq_refl eq_refl) as (? & ? & ?). auto 10.
Qed.

(** The children of whatever the parser answers are parsed leaves. *)
Lemma parse_text_response_children (r : AIResponse) (p : string)
    (sid : option string) (w : World) :
  Forall parsed_leaf (sub_commands (fst (parse_text_response r p sid w))).
Proof.
  unfold parse_text_response, bind.
  destruct (uuid4 w) as [cid w1].
  destruct (_ || _).
  - rewrite new_Command_eq. constructor.
  - destruct (contains ";" (raw_text r)).
    + rewrite new_Command_eq, parse_sub_commands_eq. simpl.
      apply per_fragment_results_leaves.
    + destruct (_parse_single_command (raw_text r) p sid w1)
        as [[c|] w2] eqn:Hp.
      * assert (Hl : parsed_leaf c).
        { apply (_parse_single_command_leaf (raw_text r) p sid w1).
          rewrite Hp. reflexivity. }
        destruct Hl as (_ & Hsub & _). unfold ret. simpl.
        rewrite Hsub. constructor.
      * rewrite new_Command_eq. constructor.
Qed.

Lemma parse_function_call_response_children (r : AIResponse) (p : string)
    (sid : option string) (w : World) :
  Forall parsed_leaf
    (sub_commands (fst (parse_function_call_response r p sid w))).
Proof.
  unfold parse_function_call_response, bind.
  destruct (uuid4 w) as [cid w1].
  destruct (function_calls r) as [|fc [|fc' rest]].
  - rewrite new_Command_eq. constructor.
  - destruct (_parse_function_call fc p sid w1) as [[c|] w2] eqn:Hp.
    + assert (Hl : parsed_leaf c).
      { apply (_parse_function_call_leaf fc p sid w1).
        rewrite Hp. reflexivity. }
      destruct Hl as (_ & Hsub & _). unfold ret. simpl.
      rewrite Hsub. constructor.
    + rewrite new_Command_eq. constructor.
  - rewrite new_Command_eq, parse_function_calls_eq.
    apply (per_call_results_leaves (fc :: fc' :: rest)).
Qed.

(** The executor writes the status, the two timestamps of the run and
    the diagnostic of the command it is given, and nothing else. *)
Lemma execute_command_frame (c : Command) (w : World) :
  let c' := snd (fst (execute_command c w)) in
  command.id c' = command.id c
  /\ command.type c' = command.type c
  /\ command.created_at c' = command.created_at c
  /\ user_prompt c' = user_prompt c
  /\ raw_response c' = raw_response c
  /\ command.screenshot_id c' = command.screenshot_id c
  /\ data c' = data c
  /\ sub_commands c' = sub_commands c.
Proof.
  unfold execute_command.
  destruct (bool_decide (status c = FAILED)); [simpl; auto 10|].
  unfold bind.
  pose proof (update_status_frame c EXECUTING None w) as H1.
  destruct (update_status c EXECUTING None w) as [c1 w1]. simpl in H1.
  assert (Hend : forall (b : bool) (w2 : World),
            let c2 := snd (fst ((if b
                       then let* c2 := update_status c1 COMPLETED None in
                            ret (b, c2)
                       else let* c2 := update_status c1 FAILED
                                         (Some "Command execution failed") in
                            ret (b, c2)) w2)) in
            command.id c2 = command.id c1
            /\ command.type c2 = command.type c1
            /\ command.created_at c2 = command.created_at c1
            /\ user_prompt c2 = user_prompt c1
            /\ raw_response c2 = raw_response c1
            /\ command.screenshot_id c2 = command.screenshot_id c1
            /\ data c2 = data c1
            /\ sub_commands c2 = sub_commands c1).
  { intros [|] w2; unfold bind, ret.
    - pose proof (update_status_frame c1 COMPLETED None w2) as H2.
      destruct (update_status c1 COMPLETED None w2) as [c2 w3]. exact H2.
    - pose proof (update_status_frame c1 FAILED
                    (Some "Command execution failed") w2) as H2.
      destruct (update_status c1 FAILED _ w2) as [c2 w3]. exact H2. }
  destruct (bool_decide (command.type c1 = COMPOSITE));
    [destruct (_execute_composite_command c1 w1) as [b w2]
    |destruct (_execute_single_command c1 w1) as [b w2]];
    specialize (Hend b w2); cbv zeta in Hend; unfold bind in Hend;
    intuition congruence.
Qed.

(** C10.  Executing a command leaves its list of sub-commands, and every
    field but the status, the timestamps of the run and the diagnostic,
    as they were: no sub-command is written to.  So after a response is
    parsed and executed, every sub-command of the result is still
    Pending, with no executed or completed timestamp and no diagnostic,
    whatever its primitive answered. *)
Theorem composite_children_untouched :
  (forall (c : Command) (w : World),
      let c' := snd (fst (execute_command c w)) in
      sub_commands c' = sub_commands c
      /\ command.id c' = command.id c
      /\ command.type c' = command.type c
      /\ command.created_at c' = command.created_at c
      /\ user_prompt c' = user_prompt c
      /\ raw_response c' = raw_response c
      /\ command.screenshot_id c' = command.screenshot_id c
      /\ data c' = data c)
  /\ (forall (r : AIResponse) (p : string) (sid : option string)
             (w : World),
         let c' := snd (fst (execute_ai_response r p sid w)) in
         Forall untouched (sub_commands c')).
Proof.
  split.
  - intros c w. pose proof (execute_command_frame c w) as Hf.
    simpl in *. intuition.
  - intros r p sid w. unfold execute_ai_response, bind. simpl.
    assert (Hch : Forall parsed_leaf
              (sub_commands
                 (fst ((if is_function_call r
                        then parse_function_call_response r p sid
                        else parse_text_response r p sid) w)))).
    { destruct (is_function_call r).
      - apply parse_function_call_response_children.
      - apply parse_text_response_children. }
    destruct ((if is_function_call r
               then parse_function_call_response r p sid
               else parse_text_response r p sid) w) as [c w1].
    simpl in Hch.
    destruct (execute_command_frame c w1) as (_ & _ & _ & _ & _ & _ & _ & Hs).
    rewrite Hs. eapply Forall_impl; [exact Hch|].
    intros child Hl. apply Hl.
Qed.

End Parser.

(** C3 on a run: the sentinel with blanks around it, first without and
    then with the retry flag. *)
Lemma sentinel_short_circuit_witness :
  let r := sentinel_reply false in
  let r' := sentinel_reply true in
  let w := calm 0%Q in
  let c := fst (parse_text_response r "open notepad" None w) in
  parse_text_response r "open notepad" None w =
    new_Command (fst (uuid4 w)) UNKNOWN FAILED "open notepad" (raw_text r)
      (Some "AI detected an error and suggested retry") None ∅
      (snd (uuid4 w))
  /\ command.type c = UNKNOWN
  /\ status c = FAILED
  /\ (exists msg, error_message c = Some msg /\ msg <> "")
  /\ sub_commands c = []
  /\ parse_text_response r' "open notepad" None w =
     parse_text_response r "open notepad" None w.
Proof.
  apply (sentinel_short_circuit (sentinel_reply false) (sentinel_reply true)
           "open notepad" None (calm 0%Q)).
  - vm_compute. reflexivity.
  - reflexivity.
Defined.

(** C5 on a run: the text [foo; pyautogui.click()]. *)
Lemma composite_text_children_witness :
  let r := text_response "foo; pyautogui.click()" in
  let w := calm 0%Q in
  let w0 := snd (datetime_now (snd (uuid4 w))) in
  let results :=
    fst (per_fragment_results (map strip (split ";" (raw_text r))) "u" None w0)
  in
  let c := fst (parse_text_response r "u" None w) in
  command.type c = COMPOSITE
  /\ status c = PENDING
  /\ error_message c = None
  /\ raw_response c = raw_text r
  /\ sub_commands c = commands_of results
  /\ Forall (fun child => command.type child <> UNKNOWN
                          /\ error_message child = None)
       (sub_commands c).
Proof.
  apply (composite_text_children (text_response "foo; pyautogui.click()")
           "u" None (calm 0%Q)).
  - vm_compute. reflexivity.
  - vm_compute. discriminate.
  - vm_compute. reflexivity.
Defined.

(** C5 as the specification words it fails on that text: the fragment
    [foo] matches none of the forms, and the composite has one child, the
    click; there is no Unknown child at position 0 or anywhere. *)
Lemma unparsed_fragment_is_dropped :
  let w := calm 0%Q in
  let c := fst (parse_text_response
                  (text_response "foo; pyautogui.click()") "u" None w) in
  fst (_parse_single_command "foo" "u" None w) = None
  /\ command.type c = COMPOSITE
  /\ map command.type (sub_commands c) = [MOUSE_CLICK]
  /\ ~ (exists child, sub_commands c !! 0%nat = Some child
                      /\ command.type child = UNKNOWN
                      /\ error_message child = Some "Could not parse command").
Proof.
  vm_compute. repeat split.
  intros (child & Hc & Hty & _). injection Hc as <-. discriminate Hty.
Qed.

(** C9 on a run: a function-call response with an empty list of calls. *)
Lemma no_function_calls_unknown_witness :
  let r := call_response [] in
  let c := fst (parse_function_call_response r "u" None (calm 0%Q)) in
  let run := fst (execute_command c (calm 1%Q)) in
  command.type c = UNKNOWN
  /\ status c = PENDING
  /\ error_message c = Some "No function calls found in response"
  /\ sub_commands c = []
  /\ data c = ∅
  /\ fst run = false
  /\ status (snd run) = FAILED
  /\ error_message (snd run) = Some "Command execution failed".
Proof.
  apply (no_function_calls_unknown (call_response []) "u" None
           (calm 0%Q) (calm 1%Q)).
  reflexivity.
Defined.

(** C9 as the specification words it fails there: what the parser answers
    is not in status Failed. *)
Lemma no_function_calls_not_failed :
  let c := fst (parse_function_call_response (call_response []) "u" None
                  (calm 0%Q)) in
  function_calls (call_response []) = []
  /\ command.type c = UNKNOWN
  /\ status c <> FAILED
  /\ status c = PENDING.
Proof. vm_compute. repeat split. discriminate. Qed.

(** ** Facts about the string functions *)

Section StringFacts.
Variable p : ascii -> bool.

Lemma is_empty_false (s : string) : s <> "" -> is_empty s = false.
Proof. destruct s; [congruence | reflexivity]. Qed.

Lemma is_empty_app_r (s t : string) : is_empty t = false -> is_empty (s ++ t) = false.
Proof. destruct s; simpl; auto. Qed.

Lemma strip_prefix_app (pre s : string) : strip_prefix pre (pre ++ s) = Some s.
Proof.
  induction pre as [|a pre IH]; simpl; [destruct s; reflexivity|].
  rewrite Ascii.eqb_refl. exact IH.
Qed.

(** [span] cuts where the run ends. *)
Lemma span_app_stop (a b : string) :
  all_chars p a = true ->
  match b with EmptyString => True | String c _ => p c = false end ->
  span p (a ++ b) = (a, b).
Proof.
  intros Ha Hb. induction a as [|c a IH]; simpl in *.
  - destruct b as [|c b]; [reflexivity|]. simpl. rewrite Hb. reflexivity.
  - apply andb_prop in Ha as [Hc Ha]. rewrite Hc, (IH Ha). reflexivity.
Qed.

Lemma span_spec (s a b : string) :
  span p s = (a, b) -> s = a ++ b /\ all_chars p a = true.
Proof.
  revert a b. induction s as [|c s IH]; simpl; intros a b.
  - intros [= <- <-]. split; reflexivity.
  - destruct (p c) eqn:Hc.
    + destruct (span p s) as [a' b']. intros [= <- <-].
      destruct (IH a' b' eq_refl) as [-> Ha]. simpl. rewrite Hc, Ha.
      split; reflexivity.
    + intros [= <- <-]. split; reflexivity.
Qed.

Lemma all_chars_app (a b : string) :
  all_chars p (a ++ b) = all_chars p a && all_chars p b.
Proof.
  induction a as [|c a IH]; simpl; [reflexivity|].
  rewrite IH, andb_assoc. reflexivity.
Qed.

Lemma all_chars_impl (q : ascii -> bool) (s : string) :
  (forall c, p c = true -> q c = true) ->
  all_chars p s = true -> all_chars q s = true.
Proof.
  intros Hpq. induction s as [|c s IH]; simpl; [reflexivity|].
  intros Hs. apply andb_prop in Hs as [Hc Hs].
  rewrite (Hpq c Hc), (IH Hs). reflexivity.
Qed.

Lemma lstrip_with_head (c : ascii) (s : string) :
  p c = false -> lstrip_with p (String c s) = String c s.
Proof. intros Hc. simpl. rewrite Hc. reflexivity. Qed.

(** Stripping on the right leaves a text alone when its end does. *)
Lemma rstrip_with_app_keep (s t : string) :
  rstrip_with p t = t -> t <> "" -> rstrip_with p (s ++ t) = s ++ t.
Proof.
  intros Ht Hne. induction s as [|c s IH]; simpl; [exact Ht|].
  rewrite IH, is_empty_app_r by (apply is_empty_false; exact Hne).
  rewrite andb_false_r. reflexivity.
Qed.

Lemma contains_app (c : ascii) (a b : string) :
  contains c (a ++ b) = contains c a || contains c b.
Proof.
  induction a as [|x a IH]; simpl; [reflexivity|].
  rewrite IH, orb_assoc. reflexivity.
Qed.

Lemma contains_all_chars (c : ascii) (s : string) :
  all_chars p s = true -> p c = false -> contains c s = false.
Proof.
  intros Hs Hc. induction s as [|x s IH]; simpl in *; [reflexivity|].
  apply andb_prop in Hs as [Hx Hs]. rewrite (IH Hs), orb_false_r.
  apply Ascii.eqb_neq. intros ->. congruence.
Qed.

End StringFacts.

Lemma isdigit_not_space (c : ascii) : isdigit c = true -> isspace c = false.
Proof.
  destruct c as [[] [] [] [] [] [] [] []]; vm_compute; congruence.
Qed.

Lemma isdigit_decimalchar (c : ascii) :
  isdigit c = true -> isdecimalchar c = true.
Proof. unfold isdecimalchar. intros ->. reflexivity. Qed.

Lemma append_cons (c : ascii) (s t : string) :
  String c s ++ t = String c (s ++ t).
Proof. reflexivity. Qed.

Lemma append_empty_r (s : string) : s ++ "" = s.
Proof.
  induction s as [|c s IH]; [reflexivity|].
  rewrite append_cons, IH. reflexivity.
Qed.

Lemma append_assoc (a b c : string) : (a ++ b) ++ c = a ++ (b ++ c).
Proof.
  induction a as [|x a IH]; [reflexivity|].
  rewrite !append_cons, IH. reflexivity.
Qed.

Lemma append_not_empty_r (s t : string) : t <> "" -> s ++ t <> "".
Proof.
  intros Ht. destruct s as [|c s]; [exact Ht|].
  rewrite append_cons. discriminate.
Qed.

(** A text that [float] accepts is a non-empty text over [[0-9.]]. *)
Lemma float_of_decimal_Some (d : string) (q : Q) :
  float_of_decimal d = Some q ->
  all_chars isdecimalchar d = true /\ d <> "".
Proof.
  unfold float_of_decimal.
  destruct (span isdigit d) as [ip rest] eqn:Hs.
  apply span_spec in Hs as [-> Hip].
  apply (all_chars_impl isdigit isdecimalchar) in Hip;
    [|exact isdigit_decimalchar].
  destruct rest as [|c fp0].
  - destruct ip as [|a ip]; simpl; [discriminate|]. intros _.
    rewrite append_empty_r. split; [exact Hip | discriminate].
  - destruct (span isdigit fp0) as [fp tail] eqn:Hf.
    apply span_spec in Hf as [-> Hfp].
    apply (all_chars_impl isdigit isdecimalchar) in Hfp;
      [|exact isdigit_decimalchar].
    destruct (Ascii.eqb c ".") eqn:Hc; simpl; [|discriminate].
    destruct tail as [|t tail]; simpl; [|discriminate].
    apply Ascii.eqb_eq in Hc as ->.
    destruct (is_empty ip && is_empty fp); [discriminate|]. intros _.
    split; [|apply append_not_empty_r; discriminate].
    rewrite all_chars_app. simpl. rewrite all_chars_app, Hip, Hfp.
    reflexivity.
Qed.

(** ** The pointer move *)

(** [int] on a digit string within the cap, and what it answers. *)
Lemma int_of_text_short (s : string) :
  (String.length s <= int_max_str_digits)%nat ->
  int_of_text s = Some (int_of_digits s).
Proof.
  intros Hlen. unfold int_of_text.
  destruct (int_max_str_digits <? String.length s)%nat eqn:Hlt;
    [|reflexivity].
  apply Nat.ltb_lt in Hlt. lia.
Qed.


Lemma head_digit_not_space (y rest : string) :
  y <> "" -> all_chars isdigit y = true ->
  match y ++ rest with
  | EmptyString => True
  | String c _ => isspace c = false
  end.
Proof.
  intros Hne Hy. destruct y as [|c y]; [congruence|].
  rewrite append_cons. simpl in Hy. apply andb_prop in Hy as [Hc _].
  apply isdigit_not_space. exact Hc.
Qed.

(** The expression of the pointer move matches its surface form, and the
    groups are the parts. *)
Lemma match_moveTo_text (x blanks y : string)
    (duration : option (string * string)) :
  x <> "" -> all_chars isdigit x = true ->
  y <> "" -> all_chars isdigit y = true ->
  all_chars isspace blanks = true ->
  match duration with
  | None => True
  | Some (blanks', d) =>
      all_chars isspace blanks' = true
      /\ all_chars isdecimalchar d = true /\ d <> ""
  end ->
  match_moveTo (moveTo_text x blanks y duration) =
  Some (x, y, snd <$> duration).
Proof.
  intros Hx0 Hx Hy0 Hy Hb Hd.
  unfold match_moveTo, moveTo_text.
  rewrite strip_prefix_app. cbn [mbind option_bind].
  rewrite (span_app_stop isdigit x) by (try exact Hx; reflexivity).
  rewrite (is_empty_false x Hx0).
  rewrite (strip_prefix_app ","). cbn [mbind option_bind].
  rewrite (span_app_stop isspace blanks)
    by (try exact Hb; apply head_digit_not_space; assumption).
  destruct duration as [[blanks' d]|].
  - destruct Hd as (Hb' & Hd & Hd0).
    rewrite (span_app_stop isdigit y) by (try exact Hy; reflexivity).
    rewrite (is_empty_false y Hy0).
    change (strip_prefix ")" ("," ++ blanks' ++ "duration=" ++ d ++ ")"))
      with (@None string).
    rewrite (strip_prefix_app ","). cbn [mbind option_bind].
    rewrite (span_app_stop isspace blanks') by (try exact Hb'; reflexivity).
    rewrite (strip_prefix_app "duration="). cbn [mbind option_bind].
    rewrite (span_app_stop isdecimalchar d) by (try exact Hd; reflexivity).
    rewrite (is_empty_false d Hd0).
    reflexivity.
  - rewrite (span_app_stop isdigit y) by (try exact Hy; reflexivity).
    rewrite (is_empty_false y Hy0). reflexivity.
Qed.

Lemma moveTo_text_strip (x blanks y : string)
    (duration : option (string * string)) :
  strip (moveTo_text x blanks y duration) = moveTo_text x blanks y duration.
Proof.
  unfold strip, strip_with.
  assert (Hr : rstrip_with isspace (moveTo_text x blanks y duration) =
               moveTo_text x blanks y duration).
  { unfold moveTo_text. destruct duration as [[blanks' d]|];
      rewrite <- !append_assoc;
      apply rstrip_with_app_keep; (reflexivity || discriminate). }
  rewrite Hr. unfold moveTo_text. rewrite append_cons.
  apply lstrip_with_head. reflexivity.
Qed.

Lemma moveTo_text_no_semicolon (x blanks y : string)
    (duration : option (string * string)) :
  all_chars isdigit x = true -> all_chars isdigit y = true ->
  all_chars isspace blanks = true ->
  match duration with
  | None => True
  | Some (blanks', d) =>
      all_chars isspace blanks' = true /\ all_chars isdecimalchar d = true
  end ->
  contains ";" (moveTo_text x blanks y duration) = false.
Proof.
  intros Hx Hy Hb Hd. unfold moveTo_text.
  rewrite !contains_app.
  rewrite (contains_all_chars isdigit ";" x Hx eq_refl).
  rewrite (contains_all_chars isdigit ";" y Hy eq_refl).
  rewrite (contains_all_chars isspace ";" blanks Hb eq_refl).
  destruct duration as [[blanks' d]|]; [|reflexivity].
  destruct Hd as [Hb' Hd]. rewrite !contains_app.
  rewrite (contains_all_chars isspace ";" blanks' Hb' eq_refl).
  rewrite (contains_all_chars isdecimalchar ";" d Hd eq_refl).
  reflexivity.
Qed.

Section MoveTo.
Context {World : Type} `{Host World} `{Pydantic}.

Lemma _parse_single_command_moveTo (x blanks y : string)
    (duration : option (string * string)) (q : Q) (p : string)
    (sid : option string) (w : World) :
  moveTo_parts x blanks y duration ->
  moveTo_duration duration = Some q ->
  _parse_single_command (moveTo_text x blanks y duration) p sid w =
  (Some (mkCommand (fst (uuid4 w)) MOUSE_MOVE PENDING
           (fst (datetime_now (snd (uuid4 w)))) None None p
           (moveTo_text x blanks y duration) None sid
           (MouseMoveCommand (VInt (int_of_digits x)) (VInt (int_of_digits y))
              (VFloat q)) []),
   snd (datetime_now (snd (uuid4 w)))).
Proof.
  intros (Hx0 & Hx & Hxl & Hy0 & Hy & Hyl & Hb & Hd) Hq.
  unfold _parse_single_command, bind.
  destruct (uuid4 w) as [cid w1]. cbv zeta.
  rewrite moveTo_text_strip.
  assert (Hstart : startswith (moveTo_text x blanks y duration)
                     "pyautogui.moveTo" = true) by reflexivity.
  rewrite Hstart.
  rewrite match_moveTo_text; try assumption.
  - rewrite (int_of_text_short x Hxl), (int_of_text_short y Hyl).
    destruct duration as [[blanks' d]|]; simpl in Hq |- *.
    + destruct (float_of_decimal_Some d q Hq) as [_ Hd0].
      rewrite (is_empty_false d Hd0), Hq, new_Command_eq. reflexivity.
    + injection Hq as <-. rewrite new_Command_eq. reflexivity.
  - destruct duration as [[blanks' d]|]; [|exact I].
    simpl in Hq. destruct (float_of_decimal_Some d q Hq) as [Hd1 Hd0].
    auto.
Qed.

(** C4, as the code has it.  A raw text of the form
    [pyautogui.moveTo(<digits>,<blanks><digits>)] or
    [pyautogui.moveTo(<digits>,<blanks><digits>,<blanks>duration=<decimal>)],
    where [float] accepts the decimal text, parses to a pending MouseMove
    whose [x] and [y] are the integers the digits denote and whose
    duration is the float of the decimal text, or 0.1 when no duration is
    given; each run of digits has at most 4300 digits, the most [int]
    converts.  It is the command [_parse_single_command] answers on the
    text. *)
Theorem moveTo_parses (x blanks y : string)
    (duration : option (string * string)) (q : Q) (r : AIResponse)
    (p : string) (sid : option string) (w : World) :
  moveTo_parts x blanks y duration ->
  moveTo_duration duration = Some q ->
  raw_text r = moveTo_text x blanks y duration ->
  let c := fst (parse_text_response r p sid w) in
  command.type c = MOUSE_MOVE
  /\ data c = MouseMoveCommand (VInt (int_of_digits x))
                (VInt (int_of_digits y)) (VFloat q)
  /\ status c = PENDING
  /\ error_message c = None
  /\ sub_commands c = []
  /\ raw_response c = raw_text r
  /\ fst (_parse_single_command (raw_text r) p sid (snd (uuid4 w))) = Some c.
Proof.
  intros Hparts Hq Hraw c.
  assert (Hc : c = mkCommand (fst (uuid4 (snd (uuid4 w)))) MOUSE_MOVE PENDING
                 (fst (datetime_now (snd (uuid4 (snd (uuid4 w)))))) None None
                 p (moveTo_text x blanks y duration) None sid
                 (MouseMoveCommand (VInt (int_of_digits x))
                    (VInt (int_of_digits y)) (VFloat q)) []).
  { subst c. unfold parse_text_response, bind.
    destruct (uuid4 w) as [cid w1]. rewrite Hraw, moveTo_text_strip.
    assert (Hs : String.eqb (moveTo_text x blanks y duration) error_sentinel
                 || startswith (moveTo_text x blanks y duration)
                      error_print_prefix = false) by reflexivity.
    rewrite Hs.
    pose proof Hparts as (Hx0 & Hx & Hxl & Hy0 & Hy & Hyl & Hb & Hd).
    rewrite moveTo_text_no_semicolon; try assumption.
    - rewrite (_parse_single_command_moveTo x blanks y duration q)
        by assumption.
      reflexivity.
    - destruct duration as [[blanks' d]|]; [|exact I].
      simpl in Hq. destruct (float_of_decimal_Some d q Hq) as [Hd1 _].
      auto. }
  rewrite Hraw, (_parse_single_command_moveTo x blanks y duration q)
    by assumption.
  rewrite Hc. simpl. repeat split.
Qed.

End MoveTo.

(** C4 on two runs: the text of the specification with the prefix the
    code wants, and the short form. *)
Lemma moveTo_parses_witness :
  let r := text_response "pyautogui.moveTo(50, 100, duration=0.1)" in
  let w := calm 0%Q in
  let c := fst (parse_text_response r "u" None w) in
  command.type c = MOUSE_MOVE
  /\ data c = MouseMoveCommand (VInt (int_of_digits "50"))
                (VInt (int_of_digits "100")) (VFloat (1 # 10))
  /\ status c = PENDING
  /\ error_message c = None
  /\ sub_commands c = []
  /\ raw_response c = raw_text r
  /\ fst (_parse_single_command (raw_text r) "u" None (snd (uuid4 w))) = Some c.
Proof.
  apply (moveTo_parses "50" " " "100" (Some (" ", "0.1")) (1 # 10)
           (text_response "pyautogui.moveTo(50, 100, duration=0.1)")
           "u" None (calm 0%Q)).
  - unfold moveTo_parts, int_max_str_digits.
    repeat split; (discriminate || reflexivity || (simpl; lia)).
  - reflexivity.
  - reflexivity.
Defined.

Example moveTo_default_duration :
  let c := fst (parse_text_response (text_response "pyautogui.moveTo(7,8)")
                  "u" None (calm 0%Q)) in
  command.type c = MOUSE_MOVE
  /\ data c !! "x" = Some (VInt 7) /\ data c !! "y" = Some (VInt 8)
  /\ data c !! "duration" = Some (VFloat (1 # 10)).
Proof. vm_compute. repeat split. Qed.

(** C4 as the specification words it fails on its own example: with the
    prefix of the interface section, [moveTo(], the text matches none of
    the forms and parses to an Unknown command. *)
Lemma bare_moveTo_is_unknown :
  let c := fst (parse_text_response
                  (text_response "moveTo(50,100,duration=0.1)") "u" None
                  (calm 0%Q)) in
  command.type c = UNKNOWN
  /\ command.type c <> MOUSE_MOVE
  /\ data c = ∅
  /\ error_message c = Some "Could not parse command".
Proof. vm_compute. repeat split. discriminate. Qed.

(** The form is narrow: a sign, or a decimal text that [float] rejects,
    and the text parses to an Unknown command. *)
Example signed_moveTo_is_unknown :
  command.type (fst (parse_text_response
                       (text_response "pyautogui.moveTo(-5, 10)") "u" None
                       (calm 0%Q))) = UNKNOWN.
Proof. vm_compute. reflexivity. Qed.

Example malformed_duration_is_unknown :
  command.type (fst (parse_text_response
                       (text_response "pyautogui.moveTo(5, 10, duration=1.2.3)")
                       "u" None (calm 0%Q))) = UNKNOWN.
Proof. vm_compute. reflexivity. Qed.

(** So does a coordinate of more digits than [int] converts; one of
    exactly that many digits is still a pointer move. *)
Example overlong_moveTo_is_unknown :
  command.type
    (fst (parse_text_response
            (text_response
               ("pyautogui.moveTo(" ++ digit_run 4301 ++ ", 10)"))
            "u" None (calm 0%Q))) = UNKNOWN.
Proof. vm_compute. reflexivity. Qed.

Example longest_moveTo_parses :
  let c := fst (parse_text_response
                  (text_response
                     ("pyautogui.moveTo(" ++ digit_run 4300 ++ ", 10)"))
                  "u" None (calm 0%Q)) in
  command.type c = MOUSE_MOVE
  /\ data c !! "x" = Some (VInt (int_of_digits (digit_run 4300))).
Proof. vm_compute. repeat split. Qed.

(** ** The context store *)

Section ContextWindowFacts.
Import context_manager.
Context {World : Type} `{Host World}.

(** The slice [l[-n:]] for a positive [n]: the last [n] elements. *)
Lemma slice_from_last {A : Type} (n : Z) (l : list A) :
  (0 < n)%Z ->
  slice_from (- n) l = drop (length l - Z.to_nat n) l.
Proof.
  intros Hn. unfold slice_from.
  assert (Hneg : (- n <? 0)%Z = true) by (apply Z.ltb_lt; lia).
  rewrite Hneg. f_equal. lia.
Qed.

(** The slice [l[-0:]] is [l[0:]]: the whole list. *)
Lemma slice_from_minus_zero {A : Type} (l : list A) : slice_from (- 0) l = l.
Proof.
  unfold slice_from. change (- 0 <? 0)%Z with false. cbv iota.
  replace (Z.to_nat (Z.min (- 0) (Z.of_nat (length l)))) with 0%nat by lia.
  reflexivity.
Qed.

Lemma filter_sublist {A : Type} (f : A -> bool) (l : list A) :
  List.filter f l `sublist_of` l.
Proof.
  induction l as [|a l IH]; simpl; [constructor|].
  destruct (f a); [apply sublist_skip | apply sublist_cons]; exact IH.
Qed.

(** What one insertion computes. *)
Lemma add_entry_eq (self : ContextWindow) (entry : CommandEntry) (w : World) :
  let l := (entries self ++ [entry])%list in
  let kept :=
    if (max_entries self <? Z.of_nat (length l))%Z
    then slice_from (- max_entries self) l else l in
  add_entry self entry w =
  (mkContextWindow (max_entries self) (time_window self)
     (List.filter (recent (fst (time_time w)) (time_window self)) kept),
   snd (time_time w)).
Proof.
  unfold add_entry, _prune_old_entries, bind, ret, set_entries. simpl.
  destruct (time_time w) as [now w1]. simpl.
  destruct (max_entries self <? _)%Z; reflexivity.
Qed.

(** With a capacity of at least one, an insertion re-establishes the
    bounds of the window: the count first, then the age, in the order of
    arrival. *)
Lemma add_entry_positive_capacity (self : ContextWindow)
    (entry : CommandEntry) (w : World) :
  (0 < max_entries self)%Z ->
  let now := fst (time_time w) in
  let l := (entries self ++ [entry])%list in
  let self' := fst (add_entry self entry w) in
  entries self' =
    List.filter (recent now (time_window self))
      (drop (length l - Z.to_nat (max_entries self)) l)
  /\ (Z.of_nat (length (entries self')) <= max_entries self)%Z
  /\ Forall (fun e => (now - inject_Z (time_window self) <= timestamp e)%Q)
       (entries self')
  /\ entries self' `sublist_of` l
  /\ max_entries self' = max_entries self
  /\ time_window self' = time_window self.
Proof.
  intros Hpos now l self'.
  assert (Hkept : (if (max_entries self <? Z.of_nat (length l))%Z
                   then slice_from (- max_entries self) l else l)
                  = drop (length l - Z.to_nat (max_entries self)) l).
  { destruct (max_entries self <? Z.of_nat (length l))%Z eqn:Hlt.
    - apply slice_from_last. exact Hpos.
    - apply Z.ltb_ge in Hlt.
      replace (length l - Z.to_nat (max_entries self))%nat with 0%nat by lia.
      reflexivity. }
  assert (Hent : entries self' =
            List.filter (recent now (time_window self))
              (drop (length l - Z.to_nat (max_entries self)) l)).
  { subst self'. rewrite add_entry_eq. simpl. fold l. rewrite Hkept.
    reflexivity. }
  split; [exact Hent|]. rewrite Hent.
  split; [|split; [|split]].
  - pose proof (List.filter_length_le (recent now (time_window self))
                  (drop (length l - Z.to_nat (max_entries self)) l)) as Hle.
    rewrite length_drop in Hle. lia.
  - apply List.Forall_forall. intros e He.
    apply List.filter_In in He as [_ He]. unfold recent in He.
    apply Qle_bool_iff in He. exact He.
  - etrans; [apply filter_sublist | apply sublist_drop].
  - subst self'. rewrite add_entry_eq. split; reflexivity.
Qed.

Lemma add_entries_cons (self : ContextWindow) (e : CommandEntry)
    (es : list CommandEntry) (w : World) :
  add_entries self (e :: es) w =
  add_entries (fst (add_entry self e w)) es (snd (add_entry self e w)).
Proof. simpl. unfold bind. destruct (add_entry self e w). reflexivity. Qed.

(** After any sequence of insertions that is not empty, a window of
    capacity at least one holds no more entries than its capacity. *)
Lemma add_entries_bounded (es : list CommandEntry) :
  forall (self : ContextWindow) (w : World),
    (0 < max_entries self)%Z ->
    es <> [] ->
    (Z.of_nat (length (entries (fst (add_entries self es w))))
     <= max_entries self)%Z.
Proof.
  induction es as [|e es IH]; intros self w Hpos Hne; [congruence|].
  rewrite add_entries_cons.
  destruct (add_entry_positive_capacity self e w Hpos)
    as (_ & Hlen & _ & _ & Hmax & _).
  destruct es as [|e' es']; [exact Hlen|].
  rewrite <- Hmax. apply IH; [rewrite Hmax; exact Hpos | discriminate].
Qed.

End ContextWindowFacts.

(** C7 fails for a window of capacity zero: the slice [entries[-0:]] is
    the whole list, so the entry just inserted stays, one more than the
    capacity allows, and so does every later one. *)
Theorem add_entry_zero_capacity_keeps_entry :
  let window := empty_window 0 3600 in
  let w := calm 100%Q in
  let after_one := fst (context_manager.add_entry window (entry_at 100%Q) w) in
  let after_three :=
    fst (context_manager.add_entries window
           [entry_at 100%Q; entry_at 100%Q; entry_at 100%Q] w) in
  context_manager.max_entries after_one = 0%Z
  /\ length (context_manager.entries after_one) = 1%nat
  /\ length (context_manager.entries after_three) = 3%nat.
Proof. vm_compute. repeat split. Qed.

Example window_of_two_keeps_last_two :
  map context_manager.command
    (context_manager.entries
       (fst (context_manager.add_entries (empty_window 2 3600)
               [context_manager.mkCommandEntry 100%Q "a" "" "" "";
                context_manager.mkCommandEntry 100%Q "b" "" "" "";
                context_manager.mkCommandEntry 100%Q "c" "" "" ""]
               (calm 100%Q))))
  = ["b"; "c"].
Proof. vm_compute. reflexivity. Qed.

Section SystemStateFacts.
Import context_manager.
Context {World : Type} `{Host World}.

Lemma expired_test (now : Q) (e : StateEntry) :
  expired now e -> Qle_bool (now - updated_at e) state_ttl = false.
Proof.
  intros He. destruct (Qle_bool (now - updated_at e) state_ttl) eqn:Hb;
    [|reflexivity].
  apply Qle_bool_iff in Hb. exfalso. exact (Qlt_not_le _ _ He Hb).
Qed.

(** The bulk read without the expired entries omits an expired key. *)
Lemma get_all_system_state_omits (self : ContextManager) (key : string)
    (entry : StateEntry) (w : World) :
  system_state self !! key = Some entry ->
  expired (fst (time_time w)) entry ->
  fst (fst (get_all_system_state self false w)) !! key = None.
Proof.
  intros Hk He. unfold get_all_system_state, bind, ret.
  destruct (time_time w) as [now w1]. simpl in *.
  rewrite lookup_fmap.
  rewrite (map_lookup_filter_None_2 _ (system_state self) key); [reflexivity|].
  right. intros x Hx. rewrite Hk in Hx. injection Hx as <-.
  simpl. rewrite (expired_test now entry He). simpl. tauto.
Qed.

(** No bulk read writes to the manager. *)
Lemma get_all_system_state_frame (self : ContextManager)
    (include_expired : bool) (w : World) :
  snd (fst (get_all_system_state self include_expired w)) = self.
Proof.
  unfold get_all_system_state, bind, ret.
  destruct include_expired; [reflexivity|].
  destruct (time_time w). reflexivity.
Qed.

(** The single-key read of an expired key. *)
Lemma get_system_state_expired (self : ContextManager) (key : string)
    (entry : StateEntry) (w : World) :
  system_state self !! key = Some entry ->
  expired (fst (time_time w)) entry ->
  fst (get_system_state self key w) =
  (VNone, set_system_state self (delete key (system_state self))).
Proof.
  intros Hk He. unfold get_system_state. rewrite Hk. unfold bind, ret.
  destruct (time_time w) as [now w1]. simpl in *.
  rewrite (expired_test now entry He). reflexivity.
Qed.

(** A key that is not stored is not in any bulk read. *)
Lemma get_all_system_state_absent (self : ContextManager) (key : string)
    (include_expired : bool) (w : World) :
  system_state self !! key = None ->
  fst (fst (get_all_system_state self include_expired w)) !! key = None.
Proof.
  intros Hk. unfold get_all_system_state, bind, ret.
  destruct include_expired; simpl.
  - rewrite lookup_fmap, Hk. reflexivity.
  - destruct (time_time w) as [now w1]. simpl.
    rewrite lookup_fmap.
    rewrite (map_lookup_filter_None_2 _ (system_state self) key);
      [reflexivity|].
    left. exact Hk.
Qed.

(** C8, as the code has it.  For a key whose entry is older than the TTL
    of one hour when the clock is read: the single-key read answers
    [None] and deletes the key from the store; the bulk read without
    expired entries omits the key and leaves the store as it was, so that
    the key is still stored and the bulk read with expired entries still
    answers it; a write of another key does not evict it either.  After
    the single-key read every bulk read omits the key; after a bulk read,
    a bulk read made when the entry is still expired omits it. *)
Theorem expired_state_reads (self : ContextManager) (key other : string)
    (entry : StateEntry) (v : Value) (w w' : World) :
  system_state self !! key = Some entry ->
  expired (fst (time_time w)) entry ->
  let single := fst (get_system_state self key w) in
  let bulk := fst (get_all_system_state self false w) in
  fst single = VNone
  /\ system_state (snd single) = delete key (system_state self)
  /\ fst bulk !! key = None
  /\ snd bulk = self
  /\ fst (fst (get_all_system_state (snd bulk) true w')) !! key
     = Some (value entry)
  /\ system_state (fst (update_system_state self other v w)) =
     <[other := mkStateEntry v (fst (time_time w))]> (system_state self)
  /\ fst (fst (get_all_system_state (snd single) false w')) !! key = None
  /\ (expired (fst (time_time w')) entry ->
      fst (fst (get_all_system_state (snd bulk) false w')) !! key = None).
Proof.
  intros Hk He single bulk.
  assert (Hs : single =
            (VNone, set_system_state self (delete key (system_state self))))
    by (apply (get_system_state_expired self key entry w Hk He)).
  assert (Hb : snd bulk = self) by apply get_all_system_state_frame.
  rewrite Hs, Hb. cbn [fst snd].
  repeat split.
  - apply (get_all_system_state_omits self key entry w Hk He).
  - unfold get_all_system_state, ret. cbn [fst snd].
    rewrite lookup_fmap, Hk. reflexivity.
  - unfold update_system_state, bind, ret.
    destruct (time_time w) as [now w1]. reflexivity.
  - apply get_all_system_state_absent. simpl. apply lookup_delete_eq.
  - intros He'. apply (get_all_system_state_omits self key entry w' Hk He').
Qed.

End SystemStateFacts.

(** C8 on a run: the key [mode], written at time 0 and read at time
    3601. *)
Lemma expired_state_reads_witness :
  let self := stale_manager in
  let entry := context_manager.mkStateEntry (VStr "dark") 0%Q in
  let w := calm 3601%Q in
  let w' := calm 3700%Q in
  let single := fst (context_manager.get_system_state self "mode" w) in
  let bulk := fst (context_manager.get_all_system_state self false w) in
  fst single = VNone
  /\ context_manager.system_state (snd single) =
     delete "mode" (context_manager.system_state self)
  /\ fst bulk !! "mode" = None
  /\ snd bulk = self
  /\ fst (fst (context_manager.get_all_system_state (snd bulk) true w'))
       !! "mode" = Some (context_manager.value entry)
  /\ context_manager.system_state
       (fst (context_manager.update_system_state self "theme" (VInt 1) w)) =
     <["theme" := context_manager.mkStateEntry (VInt 1) (fst (time_time w))]>
       (context_manager.system_state self)
  /\ fst (fst (context_manager.get_all_system_state (snd single) false w'))
       !! "mode" = None
  /\ (context_manager.expired (fst (time_time w')) entry ->
      fst (fst (context_manager.get_all_system_state (snd bulk) false w'))
        !! "mode" = None).
Proof.
  apply (expired_state_reads stale_manager "mode" "theme"
           (context_manager.mkStateEntry (VStr "dark") 0%Q) (VInt 1)
           (calm 3601%Q) (calm 3700%Q)).
  - reflexivity.
  - unfold context_manager.expired. vm_compute. reflexivity.
Defined.

(** C8 as the specification words it fails on the bulk read: it finds the
    key [mode] expired and omits it, but the key is still in the store
    after the read, and a bulk read with expired entries answers it. *)
Lemma bulk_read_does_not_evict :
  let w := calm 3601%Q in
  let bulk :=
    fst (context_manager.get_all_system_state stale_manager false w) in
  let again :=
    fst (context_manager.get_all_system_state (snd bulk) true w) in
  fst bulk !! "mode" = None
  /\ context_manager.system_state (snd bulk) !! "mode" <> None
  /\ fst again !! "mode" = Some (VStr "dark").
Proof. vm_compute. repeat split. discriminate. Qed.

(** ** The scenarios of the specification, on the simulated host *)

Example scenario_start_application :
  let call := mkFunctionCall "start_application"
                (<["path" := VStr "C:/x.exe"]> ∅) in
  let c := fst (parse_function_call_response (call_response [call]) "u" None
                  (calm 0%Q)) in
  command.type c = START_PROCESS
  /\ data c !! "command" = Some (VStr "C:/x.exe")
  /\ sub_commands c = [].
Proof. vm_compute. repeat split. Qed.

Example scenario_print :
  let text := "print(" ++ String dquote "I see a desktop"
              ++ String dquote ")" in
  let run := execute_ai_response (text_response text) "u" None (calm 0%Q) in
  fst (fst run) = true
  /\ command.type (snd (fst run)) = PRINT_OUTPUT
  /\ status (snd (fst run)) = COMPLETED
  /\ action_log (snd run) = [print (VStr "I see a desktop")].
Proof. vm_compute. repeat split. Qed.

Example scenario_hotkey :
  let c := fst (parse_text_response
                  (text_response "pyautogui.hotkey('win', 'discord')") "u"
                  None (calm 0%Q)) in
  command.type c = KEYBOARD_HOTKEY
  /\ data c !! "keys" = Some (VList [VStr "win"; VStr "discord"]).
Proof. vm_compute. repeat split. Qed.

Example scenario_move_then_click :
  let run := execute_ai_response
               (text_response
                  "pyautogui.moveTo(50, 100, duration=0.1); pyautogui.click()")
               "u" None (calm 0%Q) in
  fst (fst run) = true
  /\ status (snd (fst run)) = COMPLETED
  /\ action_log (snd run) =
     [pyautogui_moveTo (VInt 50) (VInt 100) (VFloat (1 # 10));
      pyautogui_click (VStr "left") (VInt 1)].
Proof. vm_compute. repeat split. Qed.

Example scenario_window_of_one_second :
  let window :=
    context_manager.mkContextWindow 10 1
      [context_manager.mkCommandEntry 100%Q "old" "" "" ""] in
  map context_manager.command
    (context_manager.entries
       (fst (context_manager.add_entry window
               (context_manager.mkCommandEntry 102%Q "new" "" "" "")
               (calm 102%Q))))
  = ["new"].
Proof. vm_compute. reflexivity. Qed.

Example scenario_sentinel_is_not_run :
  let run := execute_ai_response (sentinel_reply false) "u" None (calm 0%Q) in
  fst (fst run) = false
  /\ status (snd (fst run)) = FAILED
  /\ executed_at (snd (fst run)) = None
  /\ action_log (snd run) = [].
Proof. vm_compute. repeat split. Qed.

(** ** More about the executor *)

Section ExecutorFacts.
Context {World : Type} `{Host World} `{Pydantic}.

(** The run of a command that is not already failed, step by step: the
    transition to Executing, the dispatch, the final transition. *)
Lemma execute_command_steps (c : Command) (w : World) :
  status c <> FAILED ->
  let begun := update_status c EXECUTING None w in
  let ran :=
    (if bool_decide (command.type (fst begun) = COMPOSITE)
     then _execute_composite_command (fst begun)
     else _execute_single_command (fst begun)) (snd begun) in
  let ended :=
    (if fst ran
     then update_status (fst begun) COMPLETED None
     else update_status (fst begun) FAILED (Some "Command execution failed"))
      (snd ran) in
  execute_command c w = ((fst ran, fst ended), snd ended).
Proof.
  intros Hst. unfold execute_command.
  rewrite bool_decide_eq_false_2 by exact Hst. unfold bind, ret.
  destruct (update_status c EXECUTING None w) as [c1 w1]. cbn [fst snd].
  destruct (bool_decide (command.type c1 = COMPOSITE)).
  - destruct (_execute_composite_command c1 w1) as [[|] w2]; cbn [fst snd].
    + destruct (update_status c1 COMPLETED None w2); reflexivity.
    + destruct (update_status c1 FAILED _ w2); reflexivity.
  - destruct (_execute_single_command c1 w1) as [[|] w2]; cbn [fst snd].
    + destruct (update_status c1 COMPLETED None w2); reflexivity.
    + destruct (update_status c1 FAILED _ w2); reflexivity.
Qed.

(** The three transitions the executor makes. *)
Lemma update_status_to_executing (c : Command) (w : World) :
  let c' := fst (update_status c EXECUTING None w) in
  executed_at c' = Some (default (fst (datetime_now w)) (executed_at c))
  /\ completed_at c' = completed_at c
  /\ error_message c' = error_message c.
Proof.
  destruct (update_status_fields c EXECUTING None w) as (_ & He & Hc & Hm).
  repeat split; assumption.
Qed.

Lemma update_status_to_completed (c : Command) (w : World) :
  let c' := fst (update_status c COMPLETED None w) in
  status c' = COMPLETED
  /\ executed_at c' = executed_at c
  /\ completed_at c' = Some (default (fst (datetime_now w)) (completed_at c))
  /\ error_message c' = error_message c.
Proof.
  destruct (update_status_fields c COMPLETED None w) as (Hs & He & Hc & Hm).
  repeat split; assumption.
Qed.

Lemma update_status_to_failed (c : Command) (msg : string) (w : World) :
  let c' := fst (update_status c FAILED (Some msg) w) in
  status c' = FAILED
  /\ executed_at c' = executed_at c
  /\ completed_at c' = completed_at c
  /\ error_message c' = Some msg.
Proof.
  destruct (update_status_fields c FAILED (Some msg) w) as (Hs & He & Hc & Hm).
  repeat split; assumption.
Qed.

(** X1.  A command that is not already failed leaves the executor with an
    executed timestamp and in a final status that agrees with the answer:
    Completed, with a completed timestamp and its diagnostic as before,
    when the answer is true; Failed, with the diagnostic
    [Command execution failed] and its completed timestamp as before, when
    the answer is false. *)
Theorem execute_command_outcome (c : Command) (w : World) :
  status c <> FAILED ->
  let r := fst (execute_command c w) in
  is_Some (executed_at (snd r))
  /\ (if fst r
      then status (snd r) = COMPLETED
           /\ is_Some (completed_at (snd r))
           /\ error_message (snd r) = error_message c
      else status (snd r) = FAILED
           /\ completed_at (snd r) = completed_at c
           /\ error_message (snd r) = Some "Command execution failed").
Proof.
  intros Hst r. subst r. rewrite (execute_command_steps c w Hst).
  cbn [fst snd].
  destruct (update_status_to_executing c w) as (He & Hc & Hm).
  cbv zeta in He, Hc, Hm.
  set (c1 := fst (update_status c EXECUTING None w)) in *.
  set (ran := (if bool_decide (command.type c1 = COMPOSITE)
               then _execute_composite_command c1
               else _execute_single_command c1)
                (snd (update_status c EXECUTING None w))).
  destruct (fst ran).
  - destruct (update_status_to_completed c1 (snd ran))
      as (Hs & He' & Hc' & Hm'). cbv zeta in Hs, He', Hc', Hm'.
    rewrite Hs, He', Hc', Hm', He, Hm. repeat split; eauto.
  - destruct (update_status_to_failed c1 "Command execution failed" (snd ran))
      as (Hs & He' & Hc' & Hm'). cbv zeta in Hs, He', Hc', Hm'.
    rewrite Hs, He', Hc', Hm', He, Hc. repeat split; eauto.
Qed.


End ExecutorFacts.

(** ** What the text parser hands to the executor *)

Section ParsedFragments.
Context {World : Type} `{Host World} `{Pydantic}.




(** A text that starts with [pre] is [pre] followed by the rest. *)
Lemma prefix_skip (pre s : string) :
  String.prefix pre s = true -> s = pre ++ skip (String.length pre) s.
Proof.
  revert s. induction pre as [|a pre IH]; intros s Hp; [reflexivity|].
  destruct s as [|b s]; [discriminate|]. simpl in Hp.
  destruct (ascii_dec a b) as [->|]; [|discriminate].
  rewrite append_cons. simpl. f_equal. apply IH. exact Hp.
Qed.





(** The outcome of a host call as the executor reports it. *)
Definition reported (o : Outcome) : bool :=
  match o with Returned => true | _ => false end.



End ParsedFragments.

(** ** Quoted texts *)

Lemma length_append (a b : string) :
  String.length (a ++ b) = (String.length a + String.length b)%nat.
Proof.
  induction a as [|c a IH]; [reflexivity|].
  rewrite append_cons. simpl. rewrite IH. reflexivity.
Qed.

Lemma prefix_refl (s : string) : String.prefix s s = true.
Proof.
  induction s as [|c s IH]; [reflexivity|]. simpl.
  destruct (ascii_dec c c); [exact IH | congruence].
Qed.

Lemma greedy_until_nil (lit : string) :
  greedy_until lit "" = if String.prefix lit "" then Some "" else None.
Proof. reflexivity. Qed.

Lemma greedy_until_cons (lit : string) (c : ascii) (s : string) :
  greedy_until lit (String c s) =
  match greedy_until lit s with
  | Some g => Some (String c g)
  | None => if String.prefix lit (String c s) then Some "" else None
  end.
Proof. reflexivity. Qed.

(** What [greedy_until] answers is followed by the literal. *)
Lemma greedy_until_sound (lit s g : string) :
  greedy_until lit s = Some g -> exists rest, s = g ++ lit ++ rest.
Proof.
  revert g. induction s as [|c s IH]; intros g.
  - rewrite greedy_until_nil.
    destruct (String.prefix lit "") eqn:Hp; [|discriminate].
    intros [= <-]. apply prefix_skip in Hp. eexists. exact Hp.
  - rewrite greedy_until_cons.
    destruct (greedy_until lit s) as [g'|].
    + intros [= <-]. destruct (IH g' eq_refl) as [rest ->].
      exists rest. reflexivity.
    + destruct (String.prefix lit (String c s)) eqn:Hp; [|discriminate].
      intros [= <-]. apply prefix_skip in Hp. eexists. exact Hp.
Qed.

(** A text that ends with the literal: the greedy match takes all that
    comes before this last occurrence. *)
Lemma greedy_until_end (lit a : string) :
  lit <> "" -> greedy_until lit (a ++ lit) = Some a.
Proof.
  intros Hlit. induction a as [|x a IH].
  - destruct lit as [|c l]; [congruence|].
    change ("" ++ String c l) with (String c l).
    rewrite greedy_until_cons.
    destruct (greedy_until (String c l) l) as [g|] eqn:Hg.
    + apply greedy_until_sound in Hg as [rest Hl].
      apply (f_equal String.length) in Hl.
      rewrite !length_append in Hl. simpl in Hl. lia.
    + rewrite (prefix_refl (String c l)). reflexivity.
  - rewrite append_cons, greedy_until_cons, IH. reflexivity.
Qed.

(** The group of [(.+)lit] on one line that ends with [lit]. *)
Lemma dot_plus_until_end (lit t : string) :
  lit <> "" -> t <> "" ->
  all_chars isdot t = true -> all_chars isdot lit = true ->
  dot_plus_until lit (t ++ lit) = Some t.
Proof.
  intros Hlit Ht Hdt Hdl. unfold dot_plus_until.
  assert (Hspan : span isdot (t ++ lit) = (t ++ lit, "")).
  { rewrite <- (append_empty_r (t ++ lit)) at 1.
    apply span_app_stop; [|exact I].
    rewrite all_chars_app, Hdt, Hdl. reflexivity. }
  rewrite Hspan. destruct t as [|c t]; [congruence|].
  rewrite append_cons, (greedy_until_end lit t Hlit). reflexivity.
Qed.

Lemma typewrite_text_strip (t : string) :
  strip (typewrite_text t) = typewrite_text t.
Proof.
  unfold strip, strip_with.
  assert (Hr : rstrip_with isspace (typewrite_text t) = typewrite_text t).
  { unfold typewrite_text. rewrite <- !append_assoc.
    apply rstrip_with_app_keep; (reflexivity || discriminate). }
  rewrite Hr. unfold typewrite_text. rewrite append_cons.
  apply lstrip_with_head. reflexivity.
Qed.

Lemma print_text_strip (t : string) : strip (print_text t) = print_text t.
Proof.
  unfold strip, strip_with.
  assert (Hr : rstrip_with isspace (print_text t) = print_text t).
  { unfold print_text. rewrite <- !append_assoc.
    apply rstrip_with_app_keep; (reflexivity || discriminate). }
  rewrite Hr. unfold print_text. rewrite append_cons.
  apply lstrip_with_head. reflexivity.
Qed.

Lemma match_typewrite_text (t : string) :
  t <> "" -> all_chars isdot t = true ->
  match_typewrite (typewrite_text t) = Some t.
Proof.
  intros Ht Hd. unfold match_typewrite, typewrite_text.
  rewrite <- (append_assoc "pyautogui.typewrite(").
  rewrite strip_prefix_app. cbn [mbind option_bind].
  apply (dot_plus_until_end close_quoted t); (discriminate || assumption || reflexivity).
Qed.

Lemma match_print_text (t : string) :
  t <> "" -> all_chars isdot t = true ->
  match_print (print_text t) = Some t.
Proof.
  intros Ht Hd. unfold match_print, print_text.
  rewrite <- (append_assoc "print(").
  rewrite strip_prefix_app. cbn [mbind option_bind].
  apply (dot_plus_until_end close_quoted t); (discriminate || assumption || reflexivity).
Qed.

(** ** The text pipeline *)

Section TextPipeline.
Context {World : Type} `{Host World} `{Pydantic}.

(** The two error forms of a raw text. *)
Definition error_form (raw : string) : bool :=
  String.eqb (strip raw) error_sentinel || startswith raw error_print_prefix.

(** A text without semicolon that is no error form and that
    [_parse_single_command] accepts parses to what it answers. *)
Lemma parse_text_response_single (r : AIResponse) (p : string)
    (sid : option string) (w : World) (c : Command) :
  error_form (raw_text r) = false ->
  contains ";" (raw_text r) = false ->
  fst (_parse_single_command (raw_text r) p sid (snd (uuid4 w))) = Some c ->
  parse_text_response r p sid w =
  (c, snd (_parse_single_command (raw_text r) p sid (snd (uuid4 w)))).
Proof.
  unfold error_form. intros He Hs Hc. unfold parse_text_response, bind.
  destruct (uuid4 w) as [cid w1]. cbn [snd] in Hc |- *.
  rewrite He, Hs.
  destruct (_parse_single_command (raw_text r) p sid w1) as [o w2].
  cbn [fst snd] in Hc |- *. rewrite Hc. reflexivity.
Qed.

(** The same text, when [_parse_single_command] answers nothing. *)
Lemma parse_text_response_unknown (r : AIResponse) (p : string)
    (sid : option string) (w : World) :
  error_form (raw_text r) = false ->
  contains ";" (raw_text r) = false ->
  fst (_parse_single_command (raw_text r) p sid (snd (uuid4 w))) = None ->
  fst (parse_text_response r p sid w) =
  mkCommand (fst (uuid4 w)) UNKNOWN PENDING
    (fst (datetime_now
            (snd (_parse_single_command (raw_text r) p sid (snd (uuid4 w))))))
    None None p (raw_text r) (Some "Could not parse command") sid ∅ [].
Proof.
  unfold error_form. intros He Hs Hc. unfold parse_text_response, bind.
  destruct (uuid4 w) as [cid w1]. cbn [fst snd] in Hc |- *.
  rewrite He, Hs.
  destruct (_parse_single_command (raw_text r) p sid w1) as [o w2].
  cbn [fst snd] in Hc |- *. rewrite Hc, new_Command_eq. reflexivity.
Qed.

(** X4.  The kind of what the text parser answers is read off the raw
    text: a Composite exactly for a text with a semicolon that is no error
    form; an Unknown command exactly for an error form or for a text
    without semicolon that [_parse_single_command] turns down. *)
Theorem parse_text_response_kind (r : AIResponse) (p : string)
    (sid : option string) (w : World) :
  let raw := raw_text r in
  let c := fst (parse_text_response r p sid w) in
  (command.type c = COMPOSITE <->
   error_form raw = false /\ contains ";" raw = true)
  /\ (command.type c = UNKNOWN <->
      error_form raw = true
      \/ (contains ";" raw = false
          /\ fst (_parse_single_command raw p sid (snd (uuid4 w))) = None)).
Proof.
  cbv zeta.
  destruct (error_form (raw_text r)) eqn:He.
  - assert (Hc : command.type (fst (parse_text_response r p sid w)) = UNKNOWN).
    { unfold parse_text_response, bind. destruct (uuid4 w) as [cid w1].
      unfold error_form in He. rewrite He, new_Command_eq. reflexivity. }
    rewrite Hc. split; split; intros; try discriminate; intuition discriminate || auto.
  - destruct (contains ";" (raw_text r)) eqn:Hs.
    + assert (Hc : command.type (fst (parse_text_response r p sid w))
                   = COMPOSITE).
      { unfold parse_text_response, bind. destruct (uuid4 w) as [cid w1].
        unfold error_form in He.
        rewrite He, Hs, new_Command_eq, parse_sub_commands_eq. reflexivity. }
      rewrite Hc. split; split; intros; try discriminate; auto.
      intuition discriminate.
    + destruct (fst (_parse_single_command (raw_text r) p sid (snd (uuid4 w))))
        as [c|] eqn:Hp.
      * rewrite (parse_text_response_single r p sid w c He Hs Hp).
        cbn [fst].
        destruct (_parse_single_command_leaf _ _ _ _ _ Hp)
          as (_ & _ & Hu & Hk).
        split; split; intros; try contradiction; intuition discriminate.
      * rewrite (parse_text_response_unknown r p sid w He Hs Hp).
        cbn [command.type].
        split; split; intros; try discriminate; auto.
        intuition discriminate.
Qed.

(** A response that is not of the function-call type is parsed and
    executed from its raw text alone: its list of function calls, its
    metadata and the rest of its fields have no influence. *)
Lemma text_response_uses_raw_text_only (r r' : AIResponse) (p : string)
    (sid : option string) (w : World) :
  is_function_call r = false ->
  is_function_call r' = false ->
  raw_text r' = raw_text r ->
  execute_ai_response r' p sid w = execute_ai_response r p sid w.
Proof.
  intros Hf Hf' Hraw. unfold execute_ai_response.
  rewrite Hf, Hf'. unfold parse_text_response. rewrite Hraw. reflexivity.
Qed.

(** X5.  An error form is not run.  When the stripped raw text is the
    sentinel, or the raw text starts with the print of the error, the
    pipeline answers false with the Unknown command in status Failed that
    the parser built: its diagnostic is the parser's, it has no executed
    timestamp, and the world has seen one uuid drawn and one reading of
    the clock, no host call and no sleep. *)
Theorem error_form_is_not_run (r : AIResponse) (p : string)
    (sid : option string) (w : World) :
  is_function_call r = false ->
  error_form (raw_text r) = true ->
  execute_ai_response r p sid w =
  ((false,
    mkCommand (fst (uuid4 w)) UNKNOWN FAILED
      (fst (datetime_now (snd (uuid4 w)))) None None p (raw_text r)
      (Some "AI detected an error and suggested retry") sid ∅ []),
   snd (datetime_now (snd (uuid4 w)))).
Proof.
  intros Hf He. unfold execute_ai_response, bind. rewrite Hf.
  unfold parse_text_response, bind. destruct (uuid4 w) as [cid w1].
  unfold error_form in He. rewrite He, new_Command_eq. reflexivity.
Qed.

End TextPipeline.

Section Surfaces.
Context {World : Type} `{Host World} `{Pydantic}.

(** X6.  The typing of a text comes back from the parser as written:
    for a text that is not empty and has no line feed and no semicolon,
    [pyautogui.typewrite(<quoted text>)] parses to a pending KeyboardType
    with that text, quotes and parentheses inside the text included. *)
Theorem typewrite_round_trip (t : string) (r : AIResponse) (p : string)
    (sid : option string) (w : World) :
  t <> "" ->
  all_chars isdot t = true ->
  contains ";" t = false ->
  raw_text r = typewrite_text t ->
  let c := fst (parse_text_response r p sid w) in
  command.type c = KEYBOARD_TYPE /\ data c = KeyboardTypeCommand (VStr t)
  /\ status c = PENDING /\ sub_commands c = [].
Proof.
  intros Ht Hd Hs Hraw c.
  assert (Hp : fst (_parse_single_command (raw_text r) p sid (snd (uuid4 w)))
               = Some (mkCommand (fst (uuid4 (snd (uuid4 w)))) KEYBOARD_TYPE
                         PENDING
                         (fst (datetime_now (snd (uuid4 (snd (uuid4 w))))))
                         None None p (typewrite_text t) None sid
                         (KeyboardTypeCommand (VStr t)) [])).
  { rewrite Hraw. unfold _parse_single_command, bind.
    destruct (uuid4 (snd (uuid4 w))) as [cid w1]. cbv zeta.
    rewrite typewrite_text_strip.
    assert (H1 : startswith (typewrite_text t) "pyautogui.moveTo" = false)
      by reflexivity.
    assert (H2 : startswith (typewrite_text t) "pyautogui.click" = false)
      by reflexivity.
    assert (H3 : startswith (typewrite_text t) "pyautogui.typewrite" = true)
      by reflexivity.
    rewrite H1, H2, H3, (match_typewrite_text t Ht Hd), new_Command_eq.
    reflexivity. }
  assert (He : error_form (raw_text r) = false).
  { rewrite Hraw. unfold error_form. rewrite typewrite_text_strip.
    reflexivity. }
  assert (Hsemi : contains ";" (raw_text r) = false).
  { rewrite Hraw. unfold typewrite_text. rewrite !contains_app, Hs.
    reflexivity. }
  subst c. rewrite (parse_text_response_single r p sid w _ He Hsemi Hp).
  cbn [fst command.type data status sub_commands]. repeat split.
Qed.

(** X7.  The print of a text comes back from the parser as written: for a
    text that is not empty and has no line feed and no semicolon,
    [print(<quoted text>)] parses to a pending PrintOutput with that
    text. *)
Theorem print_round_trip (t : string) (r : AIResponse) (p : string)
    (sid : option string) (w : World) :
  t <> "" ->
  all_chars isdot t = true ->
  contains ";" t = false ->
  raw_text r = print_text t ->
  let c := fst (parse_text_response r p sid w) in
  command.type c = PRINT_OUTPUT /\ data c = PrintOutputCommand (VStr t)
  /\ status c = PENDING /\ sub_commands c = [].
Proof.
  intros Ht Hd Hs Hraw c.
  assert (Hp : fst (_parse_single_command (raw_text r) p sid (snd (uuid4 w)))
               = Some (mkCommand (fst (uuid4 (snd (uuid4 w)))) PRINT_OUTPUT
                         PENDING
                         (fst (datetime_now (snd (uuid4 (snd (uuid4 w))))))
                         None None p (print_text t) None sid
                         (PrintOutputCommand (VStr t)) [])).
  { rewrite Hraw. unfold _parse_single_command, bind.
    destruct (uuid4 (snd (uuid4 w))) as [cid w1]. cbv zeta.
    rewrite print_text_strip.
    assert (H1 : startswith (print_text t) "pyautogui.moveTo" = false)
      by reflexivity.
    assert (H2 : startswith (print_text t) "pyautogui.click" = false)
      by reflexivity.
    assert (H3 : startswith (print_text t) "pyautogui.typewrite" = false)
      by reflexivity.
    assert (H4 : startswith (print_text t) "pyautogui.hotkey" = false)
      by reflexivity.
    assert (H5 : startswith (print_text t) "start " = false)
      by reflexivity.
    assert (H6 : startswith (print_text t) "print(" = true)
      by reflexivity.
    rewrite H1, H2, H3, H4, H5, H6, (match_print_text t Ht Hd),
      new_Command_eq.
    reflexivity. }
  assert (He : error_form (raw_text r) = false).
  { rewrite Hraw. unfold error_form. rewrite print_text_strip.
    reflexivity. }
  assert (Hsemi : contains ";" (raw_text r) = false).
  { rewrite Hraw. unfold print_text. rewrite !contains_app, Hs.
    reflexivity. }
  subst c. rewrite (parse_text_response_single r p sid w _ He Hsemi Hp).
  cbn [fst command.type data status sub_commands]. repeat split.
Qed.

(** X8.  Whatever is written after [pyautogui.click] is ignored: a
    fragment whose stripped text starts with that prefix parses to a
    MouseClick with the default button and the default count, and its run
    makes the one call [pyautogui.click(button=left, clicks=1)]. *)
Theorem click_arguments_are_ignored (text p : string) (sid : option string)
    (w w' : World) :
  startswith (strip text) "pyautogui.click" = true ->
  exists c : Command,
    fst (_parse_single_command text p sid w) = Some c
    /\ command.type c = MOUSE_CLICK
    /\ data c = MouseClickCommand
    /\ _execute_single_command c w' =
       (reported (fst (perform (pyautogui_click (VStr "left") (VInt 1)) w')),
        snd (perform (pyautogui_click (VStr "left") (VInt 1)) w')).
Proof.
  intros Hs.
  assert (Hm : startswith (strip text) "pyautogui.moveTo" = false).
  { unfold startswith in *. apply prefix_skip in Hs. rewrite Hs.
    reflexivity. }
  exists (mkCommand (fst (uuid4 w)) MOUSE_CLICK PENDING
            (fst (datetime_now (snd (uuid4 w)))) None None p (strip text)
            None sid MouseClickCommand []).
  split; [|split; [|split]].
  - unfold _parse_single_command, bind. destruct (uuid4 w) as [cid w1].
    cbv zeta. rewrite Hm, Hs, new_Command_eq. reflexivity.
  - reflexivity.
  - reflexivity.
  - unfold _execute_single_command, _execute_mouse_click, bind, ret.
    cbn [command.type data].
    change (dict_get MouseClickCommand "button" (VStr "left"))
      with (VStr "left").
    change (dict_get MouseClickCommand "clicks" (VInt 1)) with (VInt 1).
    destruct (perform _ w') as [[] w2]; reflexivity.
Qed.

End Surfaces.

(** ** More about composites and primitives *)

Section CompositeFacts.
Context {World : Type} `{Host World} `{Pydantic}.

(** Names the host call of a primitive and closes the goal. *)
Ltac one_call :=
  match goal with
  | |- context [perform ?a ?w] =>
      exists a; destruct (perform a w) as [[] ?]; split; reflexivity
  end.

(** X9.  A primitive makes at most one host call, and answers true only
    if that call returned: the run of a command by
    [_execute_single_command] either answers false and leaves the world as
    it was, or makes one call and answers whether it returned. *)
Theorem single_command_one_call (c : Command) (w : World) :
  _execute_single_command c w = (false, w)
  \/ exists a : Action,
       snd (_execute_single_command c w) = snd (perform a w)
       /\ fst (_execute_single_command c w) = reported (fst (perform a w)).
Proof.
  unfold _execute_single_command, bind, ret.
  destruct (command.type c); try (left; reflexivity).
  - right. unfold _execute_mouse_move, bind, ret.
    one_call.
  - right. unfold _execute_mouse_click, bind, ret.
    one_call.
  - unfold _execute_keyboard_type, bind, ret.
    destruct (negb (truthy _)); [left; reflexivity|right].
    one_call.
  - unfold _execute_keyboard_hotkey, bind, ret.
    destruct (negb (truthy _)); [left; reflexivity|right].
    one_call.
  - unfold _execute_start_process, bind, ret.
    destruct (negb (truthy _)); [left; reflexivity|right].
    one_call.
  - right. unfold _execute_print_output, bind, ret.
    one_call.
Qed.

Lemma forallb_true_no_halt (trace : list (Command * bool)) :
  forallb snd trace = true ->
  forall entry, last trace = Some entry -> halts entry = false.
Proof.
  intros Hall entry Hlast.
  apply last_Some in Hlast as [front ->].
  rewrite forallb_app in Hall. apply andb_prop in Hall as [_ He].
  simpl in He. rewrite andb_true_r in He.
  unfold halts. rewrite He. reflexivity.
Qed.

(** X10.  A composite answers true exactly when every one of its
    sub-commands was attempted and each attempt answered true. *)
Theorem composite_success_iff (command : Command) (w : World) :
  let trace := snd (fst (_execute_composite_command_traced command w)) in
  fst (_execute_composite_command command w) = true
  <-> map fst trace = sub_commands command /\ forallb snd trace = true.
Proof.
  intros trace. rewrite _execute_composite_command_flag.
  unfold _execute_composite_command_traced in *.
  rewrite composite_success_and. cbn [andb]. fold trace.
  split.
  - intros Hall. split; [|exact Hall].
    destruct (composite_complete_or_halted (sub_commands command) true w)
      as [Hdone | (entry & Hlast & Hhalt)]; [exact Hdone|].
    rewrite (forallb_true_no_halt trace Hall entry Hlast) in Hhalt.
    discriminate.
  - intros [_ Hall]. exact Hall.
Qed.

(** X11.  A composite without sub-commands runs to success without any
    host call: the executor answers true, marks it Completed, and the
    world has seen nothing but the readings of the clock of the two
    transitions. *)
Theorem empty_composite_succeeds (c : Command) (w : World) :
  command.type c = COMPOSITE ->
  sub_commands c = [] ->
  status c <> FAILED ->
  let begun := update_status c EXECUTING None w in
  let ended := update_status (fst begun) COMPLETED None (snd begun) in
  execute_command c w = ((true, fst ended), snd ended)
  /\ status (fst ended) = COMPLETED.
Proof.
  intros Hty Hsub Hst begun ended.
  rewrite (execute_command_steps c w Hst). fold begun.
  destruct (update_status_frame c EXECUTING None w)
    as (_ & Hty1 & _ & _ & _ & _ & _ & Hsub1).
  cbv zeta in Hty1, Hsub1. fold begun in Hty1, Hsub1.
  rewrite bool_decide_eq_true_2 by congruence.
  assert (Hrun : _execute_composite_command (fst begun) (snd begun)
                 = (true, snd begun)).
  { unfold _execute_composite_command, _execute_composite_command_traced,
      bind, ret. rewrite Hsub1, Hsub. reflexivity. }
  rewrite Hrun. cbn [fst snd]. fold ended. split; [reflexivity|].
  destruct (update_status_to_completed (fst begun) (snd begun)) as (Hs & _).
  exact Hs.
Qed.

End CompositeFacts.

(** ** Function calls *)

Section FunctionCalls.
Context {World : Type} `{Host World} `{Pydantic}.

(** X12.  A function call yields a command only under one of the five
    names of the table; the name fixes the kind, and the payload is made
    of the validated arguments, a missing argument standing for its
    default ([x], [y]: 0; [duration]: 0.1; [text], [path]: the empty
    string; [keys]: the empty list).  The argument [path] becomes the
    [command] of a StartProcess. *)
Theorem _parse_function_call_cases (fc : FunctionCall) (p : string)
    (sid : option string) (w : World) (c : Command) :
  fst (_parse_function_call fc p sid w) = Some c ->
  let args := arguments fc in
  (name fc = "execute_mouse_movement" /\ command.type c = MOUSE_MOVE
   /\ exists x y d,
        validate_int (dict_get args "x" (VInt 0)) = Some x
        /\ validate_int (dict_get args "y" (VInt 0)) = Some y
        /\ validate_float (dict_get args "duration" (VFloat (1 # 10))) = Some d
        /\ data c = MouseMoveCommand x y d)
  \/ (name fc = "execute_keyboard_input" /\ command.type c = KEYBOARD_TYPE
      /\ exists t, validate_str (dict_get args "text" (VStr "")) = Some t
                   /\ data c = KeyboardTypeCommand t)
  \/ (name fc = "execute_hotkey" /\ command.type c = KEYBOARD_HOTKEY
      /\ exists k, validate_str_list (dict_get args "keys" (VList [])) = Some k
                   /\ data c = KeyboardHotkeyCommand k)
  \/ (name fc = "start_application" /\ command.type c = START_PROCESS
      /\ exists v, validate_str (dict_get args "path" (VStr "")) = Some v
                   /\ data c = StartProcessCommand v)
  \/ (name fc = "print_output" /\ command.type c = PRINT_OUTPUT
      /\ exists t, validate_str (dict_get args "text" (VStr "")) = Some t
                   /\ data c = PrintOutputCommand t).
Proof.
  unfold _parse_function_call, bind, ret.
  destruct (uuid4 w) as [cid w1]. cbv beta zeta.
  destruct (String.eqb (name fc) "execute_mouse_movement") eqn:E1.
  { apply String.eqb_eq in E1. intros Hc. left.
    destruct (validate_int (dict_get (arguments fc) "x" (VInt 0)))
      as [x|]; [|discriminate Hc].
    destruct (validate_int (dict_get (arguments fc) "y" (VInt 0)))
      as [y|]; [|discriminate Hc].
    destruct (validate_float (dict_get (arguments fc) "duration"
                                (VFloat (1 # 10))))
      as [d|]; [|discriminate Hc].
    cbn [mbind option_bind] in Hc. rewrite new_Command_eq in Hc.
    injection Hc as <-. cbn [command.type data].
    split; [exact E1|]. split; [reflexivity|].
    exists x, y, d. repeat split. }
  destruct (String.eqb (name fc) "execute_keyboard_input") eqn:E2.
  { apply String.eqb_eq in E2. intros Hc. right; left.
    destruct (validate_str (dict_get (arguments fc) "text" (VStr "")))
      as [t|]; [|discriminate Hc].
    cbn [mbind option_bind] in Hc. rewrite new_Command_eq in Hc.
    injection Hc as <-. cbn [command.type data].
    split; [exact E2|]. split; [reflexivity|].
    exists t. repeat split. }
  destruct (String.eqb (name fc) "execute_hotkey") eqn:E3.
  { apply String.eqb_eq in E3. intros Hc. right; right; left.
    destruct (validate_str_list (dict_get (arguments fc) "keys" (VList [])))
      as [k|]; [|discriminate Hc].
    cbn [mbind option_bind] in Hc. rewrite new_Command_eq in Hc.
    injection Hc as <-. cbn [command.type data].
    split; [exact E3|]. split; [reflexivity|].
    exists k. repeat split. }
  destruct (String.eqb (name fc) "start_application") eqn:E4.
  { apply String.eqb_eq in E4. intros Hc. right; right; right; left.
    destruct (validate_str (dict_get (arguments fc) "path" (VStr "")))
      as [v|]; [|discriminate Hc].
    cbn [mbind option_bind] in Hc. rewrite new_Command_eq in Hc.
    injection Hc as <-. cbn [command.type data].
    split; [exact E4|]. split; [reflexivity|].
    exists v. repeat split. }
  destruct (String.eqb (name fc) "print_output") eqn:E5.
  { apply String.eqb_eq in E5. intros Hc. right; right; right; right.
    destruct (validate_str (dict_get (arguments fc) "text" (VStr "")))
      as [t|]; [|discriminate Hc].
    cbn [mbind option_bind] in Hc. rewrite new_Command_eq in Hc.
    injection Hc as <-. cbn [command.type data].
    split; [exact E5|]. split; [reflexivity|].
    exists t. repeat split. }
  intros Hc. discriminate Hc.
Qed.

(** The names of the table. *)
Definition known_function (fname : string) : bool :=
  String.eqb fname "execute_mouse_movement"
  || String.eqb fname "execute_keyboard_input"
  || String.eqb fname "execute_hotkey"
  || String.eqb fname "start_application"
  || String.eqb fname "print_output".

Lemma _parse_function_call_unknown_name (fc : FunctionCall) (p : string)
    (sid : option string) (w : World) :
  known_function (name fc) = false ->
  _parse_function_call fc p sid w = (None, snd (uuid4 w)).
Proof.
  unfold known_function. intros Hk.
  repeat (apply orb_false_elim in Hk as [Hk ?]).
  unfold _parse_function_call, bind, ret.
  destruct (uuid4 w) as [cid w1]. cbv beta zeta.
  repeat match goal with
         | E : String.eqb _ _ = false |- _ => rewrite E; clear E
         end.
  reflexivity.
Qed.

(** X13.  The kind of what the function-call parser answers is read off
    the list of calls: a Composite exactly for two calls or more; an
    Unknown command exactly for no call, or for a single call that
    [_parse_function_call] turns down. *)
Theorem parse_function_call_response_kind (r : AIResponse) (p : string)
    (sid : option string) (w : World) :
  let c := fst (parse_function_call_response r p sid w) in
  (command.type c = COMPOSITE <-> (2 <= length (function_calls r))%nat)
  /\ (command.type c = UNKNOWN <->
      function_calls r = []
      \/ exists fc, function_calls r = [fc]
                    /\ fst (_parse_function_call fc p sid (snd (uuid4 w)))
                       = None).
Proof.
  cbv zeta. unfold parse_function_call_response, bind.
  destruct (uuid4 w) as [cid w1]. cbn [snd].
  destruct (function_calls r) as [|fc [|fc' rest]].
  - rewrite new_Command_eq. cbn [fst command.type length].
    split; split; intros; try discriminate; try lia; auto.
  - destruct (_parse_function_call fc p sid w1) as [[c|] w2] eqn:Hp.
    + assert (Hl : parsed_leaf c).
      { apply (_parse_function_call_leaf fc p sid w1). rewrite Hp.
        reflexivity. }
      destruct Hl as (_ & _ & Hu & Hk). unfold ret.
      cbn [fst command.type length].
      split; split; intros Hx; try contradiction; try (simpl in Hx; lia).
      destruct Hx as [Hx | (fc0 & Hx & Hn)]; [discriminate|].
      injection Hx as <-. rewrite Hp in Hn. discriminate.
    + rewrite new_Command_eq. cbn [fst command.type length].
      split; split; intros Hx; try discriminate; try lia; auto.
      right. exists fc. rewrite Hp. split; reflexivity.
  - rewrite new_Command_eq, parse_function_calls_eq.
    cbn [fst command.type extend_sub_commands length].
    split; split; intros Hx; try discriminate; try lia; auto.
    destruct Hx as [Hx | (fc0 & Hx & _)]; discriminate.
Qed.

(** X14.  Two function calls or more: the Composite is pending, and its
    children are the commands that [_parse_function_call] answers on the
    calls, in the order of the calls; a call it turns down (an unknown
    name, an argument that fails validation) contributes no child, and no
    child is Unknown. *)
Theorem function_call_children (r : AIResponse) (p : string)
    (sid : option string) (w : World) :
  (2 <= length (function_calls r))%nat ->
  let w0 := snd (datetime_now (snd (uuid4 w))) in
  let results := fst (per_call_results (function_calls r) p sid w0) in
  let c := fst (parse_function_call_response r p sid w) in
  status c = PENDING
  /\ error_message c = None
  /\ sub_commands c = commands_of results
  /\ Forall parsed_leaf (sub_commands c).
Proof.
  intros Hlen w0 results c. subst c results w0.
  unfold parse_function_call_response, bind.
  destruct (uuid4 w) as [cid w1]. cbn [snd].
  destruct (function_calls r) as [|fc [|fc' rest]];
    [simpl in Hlen; lia | simpl in Hlen; lia |].
  rewrite new_Command_eq, parse_function_calls_eq.
  cbn [fst snd status error_message sub_commands extend_sub_commands app].
  repeat split.
  apply (per_call_results_leaves (fc :: fc' :: rest)).
Qed.

End FunctionCalls.

(** ** More about the context store *)

Section ContextFacts.
Import context_manager.
Context {World : Type} `{Host World}.

(** The test of the single read and the test of the bulk read are the
    same test. *)
Lemma fresh_test (now : Q) (e : StateEntry) :
  Qle_bool (now - updated_at e) state_ttl = true
  <-> (now - updated_at e <= state_ttl)%Q.
Proof. apply Qle_bool_iff. Qed.

(** X15.  What [update_system_state] writes, [get_system_state] reads
    back as long as the entry is not older than the TTL at the reading of
    the clock, and that read leaves the manager as it is. *)
Theorem system_state_round_trip (self : ContextManager) (key : string)
    (v : Value) (w w' : World) :
  (fst (time_time w') - fst (time_time w) <= state_ttl)%Q ->
  let written := fst (update_system_state self key v w) in
  fst (get_system_state written key w') = (v, written).
Proof.
  intros Hfresh written. subst written.
  unfold update_system_state, get_system_state, bind, ret.
  destruct (time_time w) as [now w1]. cbn [fst snd] in *.
  unfold set_system_state. cbn [system_state].
  rewrite lookup_insert_eq.
  destruct (time_time w') as [now' w1']. cbn [fst snd updated_at value] in *.
  apply Qle_bool_iff in Hfresh. rewrite Hfresh. reflexivity.
Qed.

(** X16.  A single-key read touches nothing but its key: the store after
    the read is included in the store before, every other key reads as
    before, history and preferences are as before; when the key is not
    stored the answer is [None] and neither the manager nor the world
    changes (the clock is not read). *)
Theorem get_system_state_frame (self : ContextManager) (key : string)
    (w : World) :
  let after := snd (fst (get_system_state self key w)) in
  system_state after ⊆ system_state self
  /\ (forall k, k <> key -> system_state after !! k = system_state self !! k)
  /\ conversation_context after = conversation_context self
  /\ user_preferences after = user_preferences self
  /\ match system_state self !! key with
     | None => get_system_state self key w = ((VNone, self), w)
     | Some _ => True
     end.
Proof.
  cbv zeta. unfold get_system_state.
  destruct (system_state self !! key) as [e|] eqn:Hk.
  - unfold bind, ret. destruct (time_time w) as [now w1].
    destruct (negb _); cbn [fst snd system_state set_system_state
                              conversation_context user_preferences].
    + repeat split; auto.
      * apply delete_subseteq.
      * intros k Hne. apply lookup_delete_ne. congruence.
    + repeat split; auto.
  - unfold ret. cbn [fst snd]. repeat split; auto.
Qed.

(** X17.  The two bulk reads, key by key.  Without the expired entries a
    key is answered exactly when it is stored and its entry is not older
    than the TTL at the one reading of the clock, with the stored value;
    with the expired entries every stored key is answered; the first
    answer is included in the second. *)
Theorem get_all_system_state_lookup (self : ContextManager) (w w' : World) :
  let recent_only := fst (fst (get_all_system_state self false w)) in
  let everything := fst (fst (get_all_system_state self true w')) in
  (forall k v,
      recent_only !! k = Some v
      <-> exists e, system_state self !! k = Some e /\ value e = v
                    /\ (fst (time_time w) - updated_at e <= state_ttl)%Q)
  /\ (forall k, everything !! k = value <$> system_state self !! k)
  /\ recent_only ⊆ everything.
Proof.
  cbv zeta. unfold get_all_system_state, bind, ret.
  destruct (time_time w) as [now w1]. cbn [fst snd].
  assert (Hlook : forall k v,
    (value <$> filter (fun kv : string * StateEntry =>
                         Is_true (Qle_bool (now - updated_at kv.2) state_ttl))
                 (system_state self)) !! k = Some v
    <-> exists e, system_state self !! k = Some e /\ value e = v
                  /\ (now - updated_at e <= state_ttl)%Q).
  { intros k v. rewrite lookup_fmap, fmap_Some.
    setoid_rewrite map_lookup_filter_Some. cbn [snd].
    split.
    - intros (e & [Hk Hf] & ->). exists e. repeat split; [exact Hk|].
      apply Qle_bool_iff. apply Is_true_true. exact Hf.
    - intros (e & Hk & <- & Hf). exists e. repeat split; [exact Hk|].
      apply Is_true_true. apply Qle_bool_iff. exact Hf. }
  split; [exact Hlook|]. split.
  - intros k. apply lookup_fmap.
  - apply map_subseteq_spec. intros k v Hv.
    apply Hlook in Hv as (e & Hk & <- & _).
    rewrite lookup_fmap, Hk. reflexivity.
Qed.

(** X18.  The two reads agree: a key that the bulk read without expired
    entries answers is answered alike by the single-key read at the same
    reading of the clock, which then leaves the manager as it is. *)
Theorem single_read_agrees_with_bulk (self : ContextManager) (key : string)
    (v : Value) (w : World) :
  fst (fst (get_all_system_state self false w)) !! key = Some v ->
  fst (get_system_state self key w) = (v, self).
Proof.
  intros Hb.
  destruct (get_all_system_state_lookup self w w) as (Hlook & _).
  cbv zeta in Hlook. apply Hlook in Hb as (e & Hk & <- & Hf).
  unfold get_system_state. rewrite Hk. unfold bind, ret.
  destruct (time_time w) as [now w1]. cbn [fst snd] in *.
  apply Qle_bool_iff in Hf. rewrite Hf. reflexivity.
Qed.

(** X19.  Preferences: what is set is read back, whatever the default;
    the other keys read as before; a key that was never set reads as the
    default; history and state are not touched. *)
Theorem preference_round_trip (self : ContextManager) (key other : string)
    (v default : Value) :
  let after := set_user_preference self key v in
  get_user_preference after key default = v
  /\ (other <> key ->
      get_user_preference after other default =
      get_user_preference self other default)
  /\ (user_preferences self !! other = None ->
      get_user_preference self other default = default)
  /\ conversation_context after = conversation_context self
  /\ system_state after = system_state self.
Proof.
  cbv zeta. unfold get_user_preference, set_user_preference, dict_get.
  cbn [user_preferences conversation_context system_state].
  repeat split.
  - rewrite lookup_insert_eq. reflexivity.
  - intros Hne. rewrite lookup_insert_ne by congruence. reflexivity.
  - intros Hn. rewrite Hn. reflexivity.
Qed.

End ContextFacts.

Section WindowFacts.
Import context_manager.
Context {World : Type} `{Host World}.

(** X20.  [get_recent_entries] with a count: a positive count answers the
    last [count] entries (all of them when there are fewer); the count 0
    answers every entry, since [entries[-0:]] is the whole list; a
    negative count [-k] answers all but the first [k].  The answer is
    always an end of the list. *)
Theorem get_recent_entries_count (self : ContextWindow) (n : Z) :
  let l := entries self in
  let skipped :=
    if (0 <? n)%Z then (length l - Z.to_nat n)%nat else Z.to_nat (- n) in
  get_recent_entries self (Some n) = drop skipped l
  /\ get_recent_entries self (Some n) `suffix_of` l
  /\ length (get_recent_entries self (Some n)) =
     (if (0 <? n)%Z then Nat.min (Z.to_nat n) (length l)
      else length l - Z.to_nat (- n))%nat
  /\ get_recent_entries self (Some 0%Z) = l
  /\ get_recent_entries self None = l.
Proof.
  cbv zeta. unfold get_recent_entries.
  assert (Heq : slice_from (- n) (entries self) =
                drop (if (0 <? n)%Z
                      then (length (entries self) - Z.to_nat n)%nat
                      else Z.to_nat (- n)) (entries self)).
  { destruct (0 <? n)%Z eqn:Hn.
    - apply slice_from_last. apply Z.ltb_lt. exact Hn.
    - apply Z.ltb_ge in Hn. unfold slice_from.
      assert (Hneg : (- n <? 0)%Z = false) by (apply Z.ltb_ge; lia).
      rewrite Hneg.
      destruct (decide (Z.of_nat (length (entries self)) <= - n)%Z) as [Hbig|Hsmall].
      + rewrite Z.min_r by exact Hbig. rewrite Nat2Z.id.
        rewrite !drop_ge by lia. reflexivity.
      + rewrite Z.min_l by lia. reflexivity. }
  rewrite Heq. repeat split.
  - apply suffix_drop.
  - rewrite length_drop. destruct (0 <? n)%Z eqn:Hn; [|reflexivity].
    apply Z.ltb_lt in Hn. lia.
  - apply slice_from_minus_zero.
Qed.

(** X21.  Whatever the capacity, an insertion leaves only entries that
    are not older than the window at the reading of the clock, and it
    neither reorders nor invents entries: what is left is a sublist of the
    old entries followed by the new one. *)
Theorem add_entry_recent_in_order (self : ContextWindow)
    (entry : CommandEntry) (w : World) :
  let now := fst (time_time w) in
  let self' := fst (add_entry self entry w) in
  Forall (fun e => (now - inject_Z (time_window self) <= timestamp e)%Q)
    (entries self')
  /\ entries self' `sublist_of` (entries self ++ [entry])%list
  /\ max_entries self' = max_entries self
  /\ time_window self' = time_window self.
Proof.
  cbv zeta. rewrite add_entry_eq. cbn [fst entries max_entries time_window].
  repeat split.
  - apply List.Forall_forall. intros e He.
    apply List.filter_In in He as [_ He]. unfold recent in He.
    apply Qle_bool_iff in He. exact He.
  - etrans; [apply filter_sublist|].
    destruct (_ <? _)%Z; [|reflexivity].
    unfold slice_from. apply sublist_drop.
Qed.

(** X22.  With a capacity of at least one, a window holds no more entries
    than its capacity after every sequence of insertions that is not
    empty, however many entries it held before. *)
Theorem window_capacity_kept (self : ContextWindow)
    (es : list CommandEntry) (w : World) :
  (0 < max_entries self)%Z ->
  es <> [] ->
  (Z.of_nat (length (entries (fst (add_entries self es w))))
   <= max_entries self)%Z.
Proof. intros Hpos Hne. apply add_entries_bounded; assumption. Qed.

Lemma filter_snoc_keep {A : Type} (f : A -> bool) (l : list A) (x : A) :
  f x = true -> List.filter f (l ++ [x]) = (List.filter f l ++ [x])%list.
Proof.
  intros Hx. rewrite List.filter_app. simpl. rewrite Hx. reflexivity.
Qed.

(** X23.  [add_command] stamps the new entry with the first reading of
    the clock and prunes at the second.  With a capacity of at least one,
    and unless the entry is already older than the window at the second
    reading, the entry is the newest of the history; state and preferences
    are not touched. *)
Theorem add_command_newest (self : ContextManager)
    (prompt cmd result shot : string) (w : World) :
  let stamp := fst (time_time w) in
  let now := fst (time_time (snd (time_time w))) in
  let window := conversation_context self in
  (0 < max_entries window)%Z ->
  (now - inject_Z (time_window window) <= stamp)%Q ->
  let after := fst (add_command self prompt cmd result shot w) in
  last (entries (conversation_context after))
    = Some (mkCommandEntry stamp cmd prompt result shot)
  /\ system_state after = system_state self
  /\ user_preferences after = user_preferences self.
Proof.
  intros stamp now window Hpos Hfresh after.
  subst after. unfold add_command, bind, ret.
  subst stamp now. destruct (time_time w) as [t1 w1]. cbn [fst snd] in *.
  pose proof (add_entry_positive_capacity window
                (mkCommandEntry t1 cmd prompt result shot) w1 Hpos)
    as (Hent & _).
  cbv zeta in Hent. fold window.
  destruct (add_entry window (mkCommandEntry t1 cmd prompt result shot) w1)
    as [window' w2]. cbn [fst snd] in *.
  cbn [conversation_context system_state user_preferences].
  repeat split. rewrite Hent.
  rewrite length_app. cbn [length].
  rewrite drop_app_le by lia.
  rewrite filter_snoc_keep.
  - apply last_snoc.
  - unfold recent. cbn [timestamp]. apply Qle_bool_iff. exact Hfresh.
Qed.

End WindowFacts.

(** ** The properties above on runs of the simulated host *)

(** X1 on the run of a typing of nothing, which fails. *)
Lemma execute_command_outcome_witness :
  let r := fst (execute_command a_blank_typing (calm 0%Q)) in
  is_Some (executed_at (snd r))
  /\ (if fst r
      then status (snd r) = COMPLETED
           /\ is_Some (completed_at (snd r))
           /\ error_message (snd r) = error_message a_blank_typing
      else status (snd r) = FAILED
           /\ completed_at (snd r) = completed_at a_blank_typing
           /\ error_message (snd r) = Some "Command execution failed").
Proof.
  apply (execute_command_outcome a_blank_typing (calm 0%Q)).
  discriminate.
Defined.



(** X5 on the reply of a generator that gives up. *)
Lemma error_form_is_not_run_witness :
  let r := sentinel_reply false in
  let w := calm 0%Q in
  execute_ai_response r "u" None w =
  ((false,
    mkCommand (fst (uuid4 w)) UNKNOWN FAILED
      (fst (datetime_now (snd (uuid4 w)))) None None "u" (raw_text r)
      (Some "AI detected an error and suggested retry") None ∅ []),
   snd (datetime_now (snd (uuid4 w)))).
Proof.
  apply (error_form_is_not_run (sentinel_reply false) "u" None (calm 0%Q)).
  - reflexivity.
  - vm_compute. reflexivity.
Defined.

(** X6 and X7 on the text [say ")" aloud], which holds the closing
    literal itself. *)
Lemma typewrite_round_trip_witness :
  let t := "say " ++ String dquote ") aloud" in
  let c := fst (parse_text_response (text_response (typewrite_text t)) "u"
                  None (calm 0%Q)) in
  command.type c = KEYBOARD_TYPE /\ data c = KeyboardTypeCommand (VStr t)
  /\ status c = PENDING /\ sub_commands c = [].
Proof.
  apply (typewrite_round_trip ("say " ++ String dquote ") aloud")
           (text_response
              (typewrite_text ("say " ++ String dquote ") aloud")))
           "u" None (calm 0%Q));
    (discriminate || reflexivity).
Defined.

Lemma print_round_trip_witness :
  let t := "say " ++ String dquote ") aloud" in
  let c := fst (parse_text_response (text_response (print_text t)) "u"
                  None (calm 0%Q)) in
  command.type c = PRINT_OUTPUT /\ data c = PrintOutputCommand (VStr t)
  /\ status c = PENDING /\ sub_commands c = [].
Proof.
  apply (print_round_trip ("say " ++ String dquote ") aloud")
           (text_response (print_text ("say " ++ String dquote ") aloud")))
           "u" None (calm 0%Q));
    (discriminate || reflexivity).
Defined.

(** X8 on a click that asks for the right button, twice. *)
Lemma click_arguments_are_ignored_witness :
  exists c : Command,
    fst (_parse_single_command "pyautogui.click(button='right', clicks=2)"
           "u" None (calm 0%Q)) = Some c
    /\ command.type c = MOUSE_CLICK
    /\ data c = MouseClickCommand
    /\ _execute_single_command c (calm 1%Q) =
       (reported (fst (perform (pyautogui_click (VStr "left") (VInt 1))
                         (calm 1%Q))),
        snd (perform (pyautogui_click (VStr "left") (VInt 1)) (calm 1%Q))).
Proof.
  apply (click_arguments_are_ignored
           "pyautogui.click(button='right', clicks=2)" "u" None
           (calm 0%Q) (calm 1%Q)).
  vm_compute. reflexivity.
Defined.

(** X11 on what the parser makes of [foo; bar]: a composite without
    children. *)
Lemma empty_composite_succeeds_witness :
  let c := fst (parse_text_response (text_response "foo; bar") "u" None
                  (calm 0%Q)) in
  let w := calm 1%Q in
  let begun := update_status c EXECUTING None w in
  let ended := update_status (fst begun) COMPLETED None (snd begun) in
  execute_command c w = ((true, fst ended), snd ended)
  /\ status (fst ended) = COMPLETED.
Proof.
  apply (empty_composite_succeeds
           (fst (parse_text_response (text_response "foo; bar") "u" None
                   (calm 0%Q)))
           (calm 1%Q)).
  - vm_compute. reflexivity.
  - vm_compute. reflexivity.
  - vm_compute. discriminate.
Defined.

Example unparsed_text_runs_to_success :
  let run := execute_ai_response (text_response "foo; bar") "u" None
               (calm 0%Q) in
  fst (fst run) = true
  /\ status (snd (fst run)) = COMPLETED
  /\ action_log (snd run) = [].
Proof. vm_compute. repeat split. Qed.

(** X12 on the call [start_application(path=C:/x.exe)]. *)
Lemma _parse_function_call_cases_witness :
  let fc := mkFunctionCall "start_application"
              (<["path" := VStr "C:/x.exe"]> ∅) in
  let c := mkCommand "uuid-0" START_PROCESS PENDING 0%Z None None "u"
             "start_application" None None
             (StartProcessCommand (VStr "C:/x.exe")) [] in
  let args := arguments fc in
  (name fc = "execute_mouse_movement" /\ command.type c = MOUSE_MOVE
   /\ exists x y d,
        validate_int (dict_get args "x" (VInt 0)) = Some x
        /\ validate_int (dict_get args "y" (VInt 0)) = Some y
        /\ validate_float (dict_get args "duration" (VFloat (1 # 10))) = Some d
        /\ data c = MouseMoveCommand x y d)
  \/ (name fc = "execute_keyboard_input" /\ command.type c = KEYBOARD_TYPE
      /\ exists t, validate_str (dict_get args "text" (VStr "")) = Some t
                   /\ data c = KeyboardTypeCommand t)
  \/ (name fc = "execute_hotkey" /\ command.type c = KEYBOARD_HOTKEY
      /\ exists k, validate_str_list (dict_get args "keys" (VList [])) = Some k
                   /\ data c = KeyboardHotkeyCommand k)
  \/ (name fc = "start_application" /\ command.type c = START_PROCESS
      /\ exists v, validate_str (dict_get args "path" (VStr "")) = Some v
                   /\ data c = StartProcessCommand v)
  \/ (name fc = "print_output" /\ command.type c = PRINT_OUTPUT
      /\ exists t, validate_str (dict_get args "text" (VStr "")) = Some t
                   /\ data c = PrintOutputCommand t).
Proof.
  apply (_parse_function_call_cases
           (mkFunctionCall "start_application"
              (<["path" := VStr "C:/x.exe"]> ∅))
           "u" None (calm 0%Q)).
  vm_compute. reflexivity.
Defined.

(** X14 on two calls, the second under a name that is not in the table. *)
Lemma function_call_children_witness :
  let r := call_response
             [mkFunctionCall "print_output" (<["text" := VStr "hi"]> ∅);
              mkFunctionCall "open_door" ∅] in
  let w := calm 0%Q in
  let w0 := snd (datetime_now (snd (uuid4 w))) in
  let results := fst (per_call_results (function_calls r) "u" None w0) in
  let c := fst (parse_function_call_response r "u" None w) in
  status c = PENDING
  /\ error_message c = None
  /\ sub_commands c = commands_of results
  /\ Forall parsed_leaf (sub_commands c).
Proof.
  apply (function_call_children
           (call_response
              [mkFunctionCall "print_output" (<["text" := VStr "hi"]> ∅);
               mkFunctionCall "open_door" ∅])
           "u" None (calm 0%Q)).
  simpl. lia.
Defined.

Example unknown_call_is_dropped :
  map command.type
    (sub_commands
       (fst (parse_function_call_response
               (call_response
                  [mkFunctionCall "print_output" (<["text" := VStr "hi"]> ∅);
                   mkFunctionCall "open_door" ∅])
               "u" None (calm 0%Q))))
  = [PRINT_OUTPUT].
Proof. vm_compute. reflexivity. Qed.

(** X15 on a value written at time 0 and read at time 100. *)
Lemma system_state_round_trip_witness :
  let written :=
    fst (context_manager.update_system_state stale_manager "theme" (VInt 1)
           (calm 0%Q)) in
  fst (context_manager.get_system_state written "theme" (calm 100%Q))
  = (VInt 1, written).
Proof.
  apply (system_state_round_trip stale_manager "theme" (VInt 1)
           (calm 0%Q) (calm 100%Q)).
  vm_compute. discriminate.
Defined.

(** X18 on the key [mode], written at time 0 and read at time 100. *)
Lemma single_read_agrees_with_bulk_witness :
  fst (context_manager.get_system_state stale_manager "mode" (calm 100%Q))
  = (VStr "dark", stale_manager).
Proof.
  apply (single_read_agrees_with_bulk stale_manager "mode" (VStr "dark")
           (calm 100%Q)).
  vm_compute. reflexivity.
Defined.

(** X22 on a window of two that receives three entries. *)
Lemma window_capacity_kept_witness :
  (Z.of_nat
     (length
        (context_manager.entries
           (fst (context_manager.add_entries (empty_window 2 3600)
                   [entry_at 100%Q; entry_at 100%Q; entry_at 100%Q]
                   (calm 100%Q)))))
   <= context_manager.max_entries (empty_window 2 3600))%Z.
Proof.
  apply (window_capacity_kept (empty_window 2 3600)
           [entry_at 100%Q; entry_at 100%Q; entry_at 100%Q] (calm 100%Q)).
  - reflexivity.
  - discriminate.
Defined.

(** X23 on a command added at time 5. *)
Lemma add_command_newest_witness :
  let w := calm 5%Q in
  let stamp := fst (time_time w) in
  let after :=
    fst (context_manager.add_command stale_manager "open notepad"
           "start notepad" "Success" "shot-1" w) in
  last (context_manager.entries (context_manager.conversation_context after))
    = Some (context_manager.mkCommandEntry stamp "start notepad"
              "open notepad" "Success" "shot-1")
  /\ context_manager.system_state after
     = context_manager.system_state stale_manager
  /\ context_manager.user_preferences after
     = context_manager.user_preferences stale_manager.
Proof.
  apply (add_command_newest stale_manager "open notepad" "start notepad"
           "Success" "shot-1" (calm 5%Q)).
  - reflexivity.
  - vm_compute. discriminate.
Defined.
